(** * EcoAgent: occupancy levels, demo-mode generator, rollups and
      recommendation filters

    A shallow embedding of the dashboard's front-end computations:
    - [getOccupancyLevel] of the room analysis page,
    - the demo-mode generator [generateMockRoomData],
      [generateMockBuildingData], [generateMockCampusAnalysis],
    - the recommendation filters of [RecommendationPanel],
      [RoomAnalysisDetail] and [BuildingCard].

    JavaScript numbers are modelled by exact rationals ([Q]); the rounding
    of IEEE doubles is outside the model.  [Math.random()] and the wall
    clock are read from an explicit world, threaded through a small state
    monad. *)

From Stdlib Require Import QArith Qround Qabs ZArith List String Ascii Bool Lia.
From Stdlib Require Import Permutation DecimalString Sorted Lqa.
Import ListNotations.

Local Open Scope Q_scope.

(** ** JavaScript numbers *)

Module JS.

(** The comparisons [<], [>] and [>=] on numbers. *)
Definition ltb (x y : Q) : bool := negb (Qle_bool y x).
Definition gtb (x y : Q) : bool := ltb y x.
Definition geb (x y : Q) : bool := Qle_bool y x.

(** [Math.floor], of the exact value. *)
Definition floor (x : Q) : Q := inject_Z (Qfloor x).

(** [Math.min] on two numbers. *)
Definition min (x y : Q) : Q := if Qle_bool x y then x else y.

(** [parseFloat(x.toFixed(d))]: the nearest multiple of [10^-d], ties
    away from zero, as a number whose denominator is [10^d].  The exact
    value is rounded; the code rounds the floating-point value, which at a
    decimal tie can fall to the other side. *)
Definition toFixed (d : nat) (x : Q) : Q :=
  let scale := Z.to_pos (10 ^ Z.of_nat d) in
  let n := Qfloor (Qabs x * inject_Z (Zpos scale) + (1 # 2)) in
  if ltb x 0 then Qmake (- n) scale else Qmake n scale.

(** Truthiness of an optional number: [undefined] and [0] are falsy. *)
Definition truthy (x : option Q) : option Q :=
  match x with
  | Some q => if Qeq_bool q 0 then None else Some q
  | None => None
  end.

End JS.

(** ** Occupancy levels *)

Inductive OccupancyLevel := high | medium | low | unknown.

(** [getOccupancyLevel] of the room analysis page. *)
Definition getOccupancyLevel (occupancy capacity : Q) : OccupancyLevel :=
  if Qeq_bool capacity 0 then unknown
  else
    let percentage := (occupancy / capacity) * 100 in
    if JS.geb percentage 70 then high
    else if JS.geb percentage 30 then medium
    else low.

(** The [occupancy_level] expression of [generateMockRoomData]. *)
Definition mockOccupancyLevel (occupancyPct : Q) : OccupancyLevel :=
  if JS.gtb occupancyPct 70 then high
  else if JS.gtb occupancyPct 30 then medium
  else low.

(** ** The world: [Math.random()] and the wall clock

    [randoms w n] is the result of the [n]-th call of [Math.random()],
    [hours w n] the result of the [n]-th [new Date().getHours()]. *)

Record World := { randoms : nat -> Q; hours : nat -> Z }.
Record Cursor := { nextRandom : nat; nextHour : nat }.

Definition Gen (A : Type) : Type := World -> Cursor -> A * Cursor.

Definition ret {A} (a : A) : Gen A := fun _ c => (a, c).

Definition bind {A B} (m : Gen A) (k : A -> Gen B) : Gen B :=
  fun w c => let (a, c') := m w c in k a w c'.

Notation "x <- m ;; k" := (bind m (fun x => k))
  (at level 61, m at next level, right associativity).

Definition Math_random : Gen Q :=
  fun w c => (randoms w (nextRandom c),
              {| nextRandom := S (nextRandom c); nextHour := nextHour c |}).

Definition getHours : Gen Z :=
  fun w c => (hours w (nextHour c),
              {| nextRandom := nextRandom c; nextHour := S (nextHour c) |}).

Definition start : Cursor := {| nextRandom := 0; nextHour := 0 |}.

(** Every draw of [Math.random()] lies in [[0, 1)]. *)
Definition fair (w : World) : Prop := forall n, 0 <= randoms w n /\ randoms w n < 1.

(** ** Strings *)

(** [toUpperCase] on one character, for the letters [a-z]. *)
Definition upper_ascii (a : ascii) : ascii :=
  let n := nat_of_ascii a in
  if ((97 <=? n) && (n <=? 122))%nat then ascii_of_nat (n - 32) else a.

Fixpoint toUpperCase (s : string) : string :=
  match s with
  | EmptyString => EmptyString
  | String a r => String (upper_ascii a) (toUpperCase r)
  end.

Fixpoint repeat_string (n : nat) (a : ascii) : string :=
  match n with O => EmptyString | S k => String a (repeat_string k a) end.

(** [s.padStart(n, '0')]. *)
Definition padStart0 (n : nat) (s : string) : string :=
  (repeat_string (n - String.length s) "0"%char ++ s)%string.

(** [String(i)] for a non-negative integer. *)
Definition string_of_nat (n : nat) : string :=
  NilZero.string_of_uint (Nat.to_uint n).

(** ** Demo-mode generator *)

(** The optional environmental parameters; [None] is [undefined]. *)
Record EnvParams := {
  avg_occupancy : option Q;
  lights_on : option bool;
  ac_on : option bool;
  fans_on : option bool;
  computers_count : option Q;
  outdoor_temperature : option Q
}.

Definition noParams : EnvParams :=
  {| avg_occupancy := None; lights_on := None; ac_on := None;
     fans_on := None; computers_count := None; outdoor_temperature := None |}.

(** Parameters of ordinary size: an occupancy override between -1000 and
    1000 and at most 1000 computers.  In this range the floating-point
    arithmetic of the code stays well within a hundredth of a rounding
    unit of the exact value. *)
Definition ordinary (envParams : EnvParams) : Prop :=
  (forall a, avg_occupancy envParams = Some a -> -1000 <= a /\ a <= 1000)
  /\ (forall n, computers_count envParams = Some n -> n <= 1000).

Record Room := {
  room_id : string;
  current_occupancy : Q;
  capacity : Q;
  occupancy_level : OccupancyLevel;
  estimated_energy_kw : Q;
  estimated_water_lph : Q;
  estimated_co2_ppm : Q;
  recommendations : list string;
  anomalies : list string;
  savings_potential : Q
}.

(** A room of ordinary size: a capacity of 0 or between 1 and 1000, and an
    occupancy and an energy estimate between -1000 and 1000. *)
Definition plausible (r : Room) : Prop :=
  (capacity r == 0 \/ (1 <= capacity r /\ capacity r <= 1000))
  /\ (-1000 <= current_occupancy r /\ current_occupancy r <= 1000)
  /\ (-1000 <= estimated_energy_kw r /\ estimated_energy_kw r <= 1000).

Definition buildingNames (buildingId : string) : option string :=
  if String.eqb buildingId "lib" then Some "Central Library"%string
  else if String.eqb buildingId "sci" then Some "Science Hall"%string
  else if String.eqb buildingId "eng" then Some "Engineering Building"%string
  else if String.eqb buildingId "dorm" then Some "Student Dormitory"%string
  else if String.eqb buildingId "cafe" then Some "Student Center"%string
  else None.

Definition getTimeBasedOccupancy : Gen Q :=
  hour <- getHours ;;
  ret (if ((9 <=? hour) && (hour <=? 17))%Z then 0.7
       else if ((18 <=? hour) && (hour <=? 22))%Z then 0.4
       else 0.1).

(** The [baseEnergy] table, with its [|| 3.0] default. *)
Definition baseEnergyOf (buildingId : string) : Q :=
  if String.eqb buildingId "lib" then 2.5
  else if String.eqb buildingId "sci" then 8.0
  else if String.eqb buildingId "eng" then 6.5
  else if String.eqb buildingId "dorm" then 1.5
  else if String.eqb buildingId "cafe" then 12.0
  else 3.0.

(** [x > bound] for an optional number: [undefined > bound] is false. *)
Definition opt_gtb (x : option Q) (bound : Q) : bool :=
  match x with Some q => JS.gtb q bound | None => false end.

Definition opt_num (x : option Q) : Q :=
  match x with Some q => q | None => 0 end.

Definition is_false (x : option bool) : bool :=
  match x with Some false => true | _ => false end.

Definition is_true (x : option bool) : bool :=
  match x with Some true => true | _ => false end.

(** The equipment adjustments applied to [energyMultiplier]. *)
Definition energyMultiplierOf (occupancyPct : Q) (envParams : EnvParams) : Q :=
  let energyMultiplier := 0.3 + occupancyPct / 100 * 0.7 in
  let energyMultiplier :=
    if is_false (lights_on envParams) then energyMultiplier * 0.7 else energyMultiplier in
  let energyMultiplier :=
    if is_false (ac_on envParams) then energyMultiplier * 0.6 else energyMultiplier in
  let energyMultiplier :=
    if is_true (fans_on envParams) then energyMultiplier * 1.1 else energyMultiplier in
  if opt_gtb (computers_count envParams) 0
  then energyMultiplier * (1 + opt_num (computers_count envParams) * 0.05)
  else energyMultiplier.

(** The rule-based recommendations pushed before the random one. *)
Definition ruleRecommendations (occupancyPct energy : Q) (envParams : EnvParams)
  : list string :=
  (if JS.ltb occupancyPct 20 && JS.gtb energy 2
   then ["Reduce HVAC - low occupancy"%string; "Auto-dim lights to 40%"%string]
   else [])
  ++ (if JS.gtb occupancyPct 80
      then ["Increase ventilation"%string; "Monitor temperature closely"%string]
      else [])
  ++ (if opt_gtb (outdoor_temperature envParams) 35 && negb (is_true (ac_on envParams))
      then ["⚠️ High outdoor temp - consider enabling AC"%string] else [])
  ++ (if opt_gtb (computers_count envParams) 10
      then ["High computer usage - monitor power load"%string] else []).

Definition generateMockRoomData (roomId buildingId : string) (envParams : EnvParams)
  : Gen Room :=
  occupancyFactor <- getTimeBasedOccupancy ;;
  r <- Math_random ;;
  let capacity := JS.floor (r * 40) + 20 in
  avgOccupancy <-
    match JS.truthy (avg_occupancy envParams) with
    | Some a => ret a
    | None =>
        r <- Math_random ;;
        ret (JS.floor (capacity * occupancyFactor * (0.5 + r * 0.5)))
    end ;;
  r <- Math_random ;;
  let occupancy := JS.min (avgOccupancy + JS.floor (r * 10 - 5)) capacity in
  let occupancyPct := occupancy / capacity * 100 in
  let baseEnergy := baseEnergyOf buildingId in
  let energyMultiplier := energyMultiplierOf occupancyPct envParams in
  r <- Math_random ;;
  let energy := baseEnergy * energyMultiplier * (0.8 + r * 0.4) in
  let recommendations := ruleRecommendations occupancyPct energy envParams in
  r <- Math_random ;;
  let recommendations :=
    if JS.gtb r 0.7
    then (recommendations ++ ["Schedule maintenance check"%string])%list
    else recommendations in
  water <- Math_random ;;
  savings <- Math_random ;;
  ret {| room_id := roomId;
         current_occupancy := occupancy;
         capacity := capacity;
         occupancy_level := mockOccupancyLevel occupancyPct;
         estimated_energy_kw := JS.toFixed 2 energy;
         estimated_water_lph := JS.toFixed 1 (water * 5);
         estimated_co2_ppm := JS.floor (400 + occupancyPct * 4);
         recommendations := firstn 3 recommendations;
         anomalies :=
           if Qeq_bool occupancy 0 && JS.gtb energy 2
           then ["Equipment running with no occupants"%string] else [];
         savings_potential := JS.toFixed 1 (savings * 30 + 10) |}.

Record Building := {
  building_id : string;
  building_name : string;
  total_rooms : Q;
  total_energy_kw : Q;
  total_occupancy : Q;
  total_capacity : Q;
  occupancy_rate : Q;
  avg_energy_per_room : Q;
  building_recommendations : list string;
  building_savings_potential : Q;
  room_states : list (string * Room)
}.

(** [Object.values(o)] of an object kept as its entries in insertion order. *)
Definition Object_values {A} (o : list (string * A)) : list A := map snd o.

(** [xs.reduce((sum, x) => sum + f(x), 0)]. *)
Definition reduce_sum {A} (f : A -> Q) (xs : list A) : Q :=
  fold_left (fun sum x => sum + f x) xs 0.

(** The [for] loop of [generateMockBuildingData], from index [i], [n] rounds. *)
Fixpoint generateRooms (n i : nat) (buildingId : string) (envParams : EnvParams)
  : Gen (list (string * Room)) :=
  match n with
  | O => ret []
  | S k =>
      let roomId := (buildingId ++ "-" ++ padStart0 3 (string_of_nat i))%string in
      room <- generateMockRoomData roomId buildingId envParams ;;
      rest <- generateRooms k (S i) buildingId envParams ;;
      ret ((roomId, room) :: rest)
  end.

(** The part of [generateMockBuildingData] after the loop: the rollup of
    the rooms into the building record. *)
Definition rollupBuilding (buildingId : string) (numRooms : Q)
    (rooms : list (string * Room)) : Gen Building :=
  let totalEnergy := reduce_sum estimated_energy_kw (Object_values rooms) in
  let totalOccupancy := reduce_sum current_occupancy (Object_values rooms) in
  let totalCapacity := reduce_sum capacity (Object_values rooms) in
  let occupancyRate :=
    if JS.gtb totalCapacity 0 then totalOccupancy / totalCapacity * 100 else 0 in
  r <- Math_random ;;
  let buildingRecs :=
    [("Close floors with <20% occupancy → Save "
        ++ string_of_nat (Z.to_nat (Qfloor (r * 15 + 10))) ++ " kW")%string;
     "Enable smart HVAC scheduling"%string;
     "Consolidate activities to fewer zones"%string;
     "Implement demand-based lighting"%string] in
  savings <- Math_random ;;
  ret {| building_id := buildingId;
         building_name :=
           match buildingNames buildingId with
           | Some name => name
           | None => toUpperCase buildingId
           end;
         total_rooms := numRooms;
         total_energy_kw := JS.toFixed 2 totalEnergy;
         total_occupancy := totalOccupancy;
         total_capacity := totalCapacity;
         occupancy_rate := JS.toFixed 1 occupancyRate;
         avg_energy_per_room := JS.toFixed 2 (totalEnergy / numRooms);
         building_recommendations := firstn 3 buildingRecs;
         building_savings_potential := JS.toFixed 1 (savings * 20 + 15);
         room_states := rooms |}.

Definition generateMockBuildingData (buildingId : string) (envParams : EnvParams)
  : Gen Building :=
  r <- Math_random ;;
  let numRooms := (Qfloor (r * 8) + 8)%Z in
  rooms <- generateRooms (Z.to_nat numRooms) 1 buildingId envParams ;;
  rollupBuilding buildingId (inject_Z numRooms) rooms.

Record CriticalBuilding := {
  crit_building_id : string;
  crit_building_name : string;
  crit_energy_kw : Q;
  crit_occupancy_rate : Q;
  crit_reason : string
}.

Record CampusMetrics := {
  campus_total_energy_kw : Q;
  campus_total_water_lph : Q;
  campus_total_occupancy : Q;
  campus_total_capacity : Q;
  campus_total_buildings : Q;
  campus_total_rooms : Q;
  campus_occupancy_rate : Q;
  campus_avg_occupancy_rate : Q;
  estimated_cost_per_hour : Q;
  potential_savings_percent : Q
}.

Record SavingsPotential := {
  total_kwh_saved : Q;
  estimated_cost_savings_hourly : Q
}.

(** The campus record; the [timestamp] string is left out. *)
Record Campus := {
  campus_name : string;
  campus_metrics : CampusMetrics;
  campus_savings_potential : SavingsPotential;
  building_states : list (string * Building);
  campus_recommendations : list string;
  critical_buildings : list CriticalBuilding;
  analysis_type : string;
  note : string
}.

Definition buildingIds : list string := ["lib"; "sci"; "eng"; "dorm"; "cafe"]%string.

(** [buildingIds.forEach(id => buildings[id] = generateMockBuildingData(...))]. *)
Fixpoint generateBuildings (ids : list string) (envParams : EnvParams)
  : Gen (list (string * Building)) :=
  match ids with
  | [] => ret []
  | id :: ids' =>
      b <- generateMockBuildingData id envParams ;;
      rest <- generateBuildings ids' envParams ;;
      ret ((id, b) :: rest)
  end.

Definition isCritical (b : Building) : bool := JS.gtb (total_energy_kw b) 50.

Definition toCritical (b : Building) : CriticalBuilding :=
  {| crit_building_id := building_id b;
     crit_building_name := building_name b;
     crit_energy_kw := total_energy_kw b;
     crit_occupancy_rate := occupancy_rate b;
     crit_reason := "High energy consumption" |}.

Definition campusRecs : list string :=
  ["🏢 Peak energy demand 2-6 PM across Science & Engineering";
   "💡 Smart grid implementation: 20-25% reduction potential";
   "🌡️ HVAC optimization: 30% of total savings opportunity";
   "📊 Consolidate after-hours classes: reduce active spaces 40%";
   "🎯 Priority: Science Hall highest savings (28%)";
   "💧 Water conservation in dorms & cafeteria recommended"]%string.

(** The part of [generateMockCampusAnalysis] after the buildings are made;
    [count] is [buildingIds.length]. *)
Definition rollupCampus (count : Q) (buildings : list (string * Building))
  : Gen Campus :=
  let totalEnergy := reduce_sum total_energy_kw (Object_values buildings) in
  let totalOccupancy := reduce_sum total_occupancy (Object_values buildings) in
  let totalCapacity := reduce_sum total_capacity (Object_values buildings) in
  r <- Math_random ;;
  let totalWater := JS.toFixed 1 (r * 150 + 100) in
  let avgOccupancyRate :=
    reduce_sum occupancy_rate (Object_values buildings) / count in
  let criticalBuildings :=
    map toCritical (filter isCritical (Object_values buildings)) in
  savings <- Math_random ;;
  ret {| campus_name := "Demo University Campus";
         campus_metrics :=
           {| campus_total_energy_kw := JS.toFixed 2 totalEnergy;
              campus_total_water_lph := totalWater;
              campus_total_occupancy := totalOccupancy;
              campus_total_capacity := totalCapacity;
              campus_total_buildings := count;
              campus_total_rooms :=
                reduce_sum total_rooms (Object_values buildings);
              campus_occupancy_rate := JS.toFixed 1 avgOccupancyRate;
              campus_avg_occupancy_rate := JS.toFixed 1 avgOccupancyRate;
              estimated_cost_per_hour :=
                JS.toFixed 2 (totalEnergy * 0.12 + totalWater * 0.002);
              potential_savings_percent := JS.toFixed 1 (savings * 15 + 18) |};
         campus_savings_potential :=
           {| total_kwh_saved := JS.toFixed 2 (totalEnergy * 0.25);
              estimated_cost_savings_hourly :=
                JS.toFixed 2 (totalEnergy * 0.25 * 0.12) |};
         building_states := buildings;
         campus_recommendations := campusRecs;
         critical_buildings := criticalBuildings;
         analysis_type := "FRONTEND_SIMULATION";
         note := "⚠️ Demo mode - Backend unavailable. Showing simulated data." |}.

Definition generateMockCampusAnalysis (envParams : EnvParams) : Gen Campus :=
  buildings <- generateBuildings buildingIds envParams ;;
  rollupCampus (inject_Z (Z.of_nat (List.length buildingIds))) buildings.

(** ** Recommendation filters

    A recommendation text is a [string] with one character per UTF-16 code
    unit; the texts considered stay within Latin-1. *)

Definition code (a : ascii) : nat := nat_of_ascii a.

(** [toLowerCase] on one code unit: [A-Z], and the Latin-1 capitals but
    the multiplication sign. *)
Definition lower_ascii (a : ascii) : ascii :=
  let n := code a in
  if ((65 <=? n) && (n <=? 90))%nat then ascii_of_nat (n + 32)
  else if ((192 <=? n) && (n <=? 222) && negb (n =? 215))%nat
       then ascii_of_nat (n + 32)
  else a.

Fixpoint toLowerCase (s : string) : string :=
  match s with
  | EmptyString => EmptyString
  | String a r => String (lower_ascii a) (toLowerCase r)
  end.

(** White space and line terminators stripped by [trim]. *)
Definition is_space (a : ascii) : bool :=
  let n := code a in
  ((n =? 9) || (n =? 10) || (n =? 11) || (n =? 12) || (n =? 13)
   || (n =? 32) || (n =? 160))%nat.

Fixpoint trimStart (s : string) : string :=
  match s with
  | EmptyString => EmptyString
  | String a r => if is_space a then trimStart r else s
  end.

Fixpoint trimEnd (s : string) : string :=
  match s with
  | EmptyString => EmptyString
  | String a r =>
      match trimEnd r with
      | EmptyString => if is_space a then EmptyString else String a EmptyString
      | r' => String a r'
      end
  end.

Definition trim (s : string) : string := trimEnd (trimStart s).

(** [s.includes(p)]. *)
Fixpoint includes (s p : string) : bool :=
  String.prefix p s
  || match s with
     | EmptyString => false
     | String _ r => includes r p
     end.

(** The filter predicate of [RecommendationPanel]. *)
Definition keepPanel (rec : string) : bool :=
  let text := toLowerCase rec in
  negb (includes text "no immediate actions")
  && negb (includes text "operating efficiently")
  && negb (includes text "monitor")
  && (10 <? String.length (trim rec))%nat.

(** The filter predicate shared by [RoomAnalysisDetail] and [BuildingCard]. *)
Definition keepRec (rec : string) : bool :=
  let text := toLowerCase rec in
  negb (includes text "no immediate")
  && negb (includes text "operating efficiently")
  && (10 <? String.length (trim rec))%nat.

(** What [RecommendationPanel] renders: [None] is [null]. *)
Definition RecommendationPanel (recommendations : option (list string))
  : option (list string) :=
  match recommendations with
  | None | Some [] => None
  | Some recs =>
      match firstn 5 (filter keepPanel recs) with
      | [] => None
      | filteredRecs => Some filteredRecs
      end
  end.

(** The recommendations section of [RoomAnalysisDetail]: [None] when the
    section is not rendered. *)
Definition RoomAnalysisDetail_recommendations (recommendations : option (list string))
  : option (list string) :=
  match recommendations with
  | None => None
  | Some recs =>
      match filter keepRec recs with
      | [] => None
      | shown => Some shown
      end
  end.

(** The list items of [BuildingCard]:
    [building.recommendations || building.building_recommendations || []]. *)
Definition BuildingCard_recommendations
    (recommendations building_recommendations : option (list string)) : list string :=
  let recs :=
    match recommendations with
    | Some recs => recs
    | None => match building_recommendations with Some recs => recs | None => [] end
    end in
  firstn 2 (filter keepRec recs).

(** ** Budget-gated recommender *)

Module Recommender.

(** Modelled from the spec: the budget levels of the Budget-Gated
    Recommender, which runs on the back end and is not among the
    sources. *)
Inductive BudgetLevel := low | medium | high.

(** Modelled from the spec: the entities that can receive
    recommendations (campus, building, room); the recommender's own
    entity records are missing with the back end. *)
Inductive Entity :=
| CampusEntity
| BuildingEntity (building : string)
| RoomEntity (building room : string).

(** Modelled from the spec: what the recommender needs to know of a
    building to order the entities; the back-end record is missing. *)
Record BuildingInfo := {
  info_id : string;
  info_critical : bool;
  info_rooms : list string
}.

(** Modelled from the spec: the state of one analysis run of the missing
    recommender: the token counter, the external calls issued (newest
    first) and the recommendation list of each entity met (newest
    first). *)
Record RunState := {
  tokens_remaining : nat;
  calls : list Entity;
  results : list (Entity * list string)
}.

Section Run.

(** The call counts of the medium and high tiers are left open by the
    spec, as are the boilerplate phrases and the external service. *)
Variables mediumCalls highCalls : nat.
Variable boilerplate : string -> bool.
Variable summarize : Entity -> option (list string).

(** Modelled from the spec: [budget_to_call_count] of the missing
    recommender; the low tier allows 3 calls. *)
Definition budget_to_call_count (b : BudgetLevel) : nat :=
  match b with
  | low => 3
  | medium => mediumCalls
  | high => highCalls
  end.

(** Modelled from the spec: the post-filter of the missing recommender
    drops strings under the 10-character floor and boilerplate. *)
Definition postFilter (recs : list string) : list string :=
  filter (fun rec => negb (String.length rec <? 10)%nat && negb (boilerplate rec)) recs.

(** Modelled from the spec: the priority order of the missing
    recommender: campus, critical buildings, remaining buildings, rooms
    of critical buildings. *)
Definition priorityOrder (buildings : list BuildingInfo) : list Entity :=
  CampusEntity
    :: map (fun b => BuildingEntity (info_id b)) (filter info_critical buildings)
    ++ map (fun b => BuildingEntity (info_id b))
         (filter (fun b => negb (info_critical b)) buildings)
    ++ flat_map (fun b => map (RoomEntity (info_id b)) (info_rooms b))
         (filter info_critical buildings).

(** Modelled from the spec: the outcome of an attempted call of the
    missing recommender: the post-filtered answer of the external
    service, or the empty list when the call fails ([None]). *)
Definition attempted (e : Entity) : Entity * list string :=
  (e, match summarize e with
      | Some recs => postFilter recs
      | None => []
      end).

(** Modelled from the spec: the outcome for an entity reached after
    the budget of the missing recommender is exhausted. *)
Definition exhausted (e : Entity) : Entity * list string := (e, []).

(** Modelled from the spec: one transition of the missing recommender's
    state machine.  With a token left the external call is attempted
    and the token is spent whether the call succeeds or fails; with
    none left the entity gets the empty list. *)
Definition step (st : RunState) (e : Entity) : RunState :=
  match tokens_remaining st with
  | O =>
      {| tokens_remaining := O;
         calls := calls st;
         results := exhausted e :: results st |}
  | S n =>
      {| tokens_remaining := n;
         calls := e :: calls st;
         results := attempted e :: results st |}
  end.

(** Modelled from the spec: one analysis run of the missing recommender
    over the entities in priority order. *)
Definition run (b : BudgetLevel) (entities : list Entity) : RunState :=
  fold_left step entities
    {| tokens_remaining := budget_to_call_count b; calls := []; results := [] |}.

End Run.

End Recommender.

(** ** Reference quantities used in the statements *)

(** The sum of a list of numbers. *)
Definition sumQ (xs : list Q) : Q := fold_right Qplus 0 xs.

(** Every number of a building record, [room_states] apart. *)
Definition buildingFigures (b : Building) : list Q :=
  [total_rooms b; total_energy_kw b; total_occupancy b; total_capacity b;
   occupancy_rate b; avg_energy_per_room b; building_savings_potential b].

(** The intensity factor as a product: the occupancy term and one factor
    per equipment setting. *)
Definition intensityFactor (ratio : Q) (envParams : EnvParams) : Q :=
  (0.3 + 0.7 * ratio)
  * (if is_false (lights_on envParams) then 0.7 else 1)
  * (if is_false (ac_on envParams) then 0.6 else 1)
  * (if is_true (fans_on envParams) then 1.1 else 1)
  * (if opt_gtb (computers_count envParams) 0
     then 1 + 0.05 * opt_num (computers_count envParams) else 1).

(** The same product without the factor for fans. *)
Definition intensityFactor_without_fans (ratio : Q) (envParams : EnvParams) : Q :=
  (0.3 + 0.7 * ratio)
  * (if is_false (lights_on envParams) then 0.7 else 1)
  * (if is_false (ac_on envParams) then 0.6 else 1)
  * (1 + 0.05 * opt_num (computers_count envParams)).

(** One row per building of a campus: id, energy, occupancy rate, and
    whether the id is listed in [critical_buildings]. *)
Definition criticalTable (campus : Campus) : list (string * Q * Q * bool) :=
  map (fun b => (building_id b, total_energy_kw b, occupancy_rate b,
                 existsb (String.eqb (building_id b))
                   (map crit_building_id (critical_buildings campus))))
      (Object_values (building_states campus)).

(** Every room of a campus. *)
Definition allRooms (campus : Campus) : list Room :=
  flat_map (fun b => Object_values (room_states b))
    (Object_values (building_states campus)).

(** The occupancy rate weighted by capacity:
    [total occupancy / total capacity * 100], to one decimal. *)
Definition weightedOccupancyRate (campus : Campus) : Q :=
  JS.toFixed 1
    (campus_total_occupancy (campus_metrics campus)
     / campus_total_capacity (campus_metrics campus) * 100).

(** [phrase] occurs in [text] as a contiguous run of characters. *)
Definition occursIn (phrase text : string) : Prop :=
  exists before after : string, text = (before ++ phrase ++ after)%string.

(** ** Sample worlds and parameters *)

(** All draws are [0], at 2 o'clock at night. *)
Definition nightWorld : World :=
  {| randoms := fun _ => 0; hours := fun _ => 2%Z |}.

(** The first draw is [0], all later ones [1/2], at noon. *)
Definition noonWorld : World :=
  {| randoms := fun n => match n with O => 0 | _ => 1 # 2 end;
     hours := fun _ => 12%Z |}.

(** All draws are [1/2], at noon. *)
Definition evenWorld : World :=
  {| randoms := fun _ => 1 # 2; hours := fun _ => 12%Z |}.

Definition withOccupancy (n : Q) : EnvParams :=
  {| avg_occupancy := Some n; lights_on := None; ac_on := None;
     fans_on := None; computers_count := None; outdoor_temperature := None |}.

Definition withFans (n : Q) : EnvParams :=
  {| avg_occupancy := Some n; lights_on := None; ac_on := None;
     fans_on := Some true; computers_count := None; outdoor_temperature := None |}.

(** Draws 0, 0.7, 0.4, 0.1, 0.8, ... (seven times the index, last digit),
    at noon. *)
Definition mixedWorld : World :=
  {| randoms := fun n => inject_Z (Z.of_nat ((n * 7) mod 10)) / 10;
     hours := fun _ => 12%Z |}.

Definition sampleRoom (id : string) (occupancy capacity energy water : Q) : Room :=
  {| room_id := id;
     current_occupancy := occupancy;
     capacity := capacity;
     occupancy_level := mockOccupancyLevel (occupancy / capacity * 100);
     estimated_energy_kw := energy;
     estimated_water_lph := water;
     estimated_co2_ppm := JS.floor (400 + occupancy / capacity * 100 * 4);
     recommendations := [];
     anomalies := [];
     savings_potential := 20 |}.

(** Building sci with two rooms: capacities 30 and 40, occupancies 25 and 5. *)
Definition sciRooms : list (string * Room) :=
  [("sci-001", sampleRoom "sci-001" 25 30 7.07 1.5);
   ("sci-002", sampleRoom "sci-002" 5 40 3.1 2.5)]%string.

(** The same rooms with other water estimates. *)
Definition sciRooms_wet : list (string * Room) :=
  [("sci-001", sampleRoom "sci-001" 25 30 7.07 4.0);
   ("sci-002", sampleRoom "sci-002" 5 40 3.1 4.9)]%string.

(** The campus generated with every room full: an override of 100
    occupants, all draws 1/2. *)
Definition fullCampus : Campus :=
  fst (generateMockCampusAnalysis (withOccupancy 100) evenWorld start).

(** The campus generated from the mixed draws, without overrides. *)
Definition mixedCampus : Campus :=
  fst (generateMockCampusAnalysis noParams mixedWorld start).

(** All draws are [9/10], at noon. *)
Definition highWorld : World :=
  {| randoms := fun _ => 9 # 10; hours := fun _ => 12%Z |}.

(** Two rolled-up buildings over the sample rooms. *)
Definition sampleBuildings : list (string * Building) :=
  [("sci", fst (rollupBuilding "sci" 2 sciRooms evenWorld start));
   ("lib", fst (rollupBuilding "lib" 2 sciRooms_wet highWorld start))]%string.

(** A run of the recommender: two critical buildings of five rooms each,
    13 entities with the campus; the external service answers for the
    campus and fails for buildings. *)
Module RecommenderSamples.
Import Recommender.

Definition fiveRooms : list string := ["001"; "002"; "003"; "004"; "005"]%string.

Definition infos : list BuildingInfo :=
  [{| info_id := "sci"; info_critical := true; info_rooms := fiveRooms |};
   {| info_id := "cafe"; info_critical := true; info_rooms := fiveRooms |}]%string.

Definition boilerplate (rec : string) : bool :=
  includes (toLowerCase rec) "no action needed".

Definition summarize (e : Entity) : option (list string) :=
  match e with
  | CampusEntity =>
      Some ["Consolidate evening classes"; "No action needed"; "Too short"]%string
  | BuildingEntity _ => None
  | RoomEntity _ _ => Some ["Switch off idle equipment"%string]
  end.

End RecommenderSamples.

(** ** Building card *)

(** The status of [BuildingCard], from [building.occupancy_rate || 0]. *)
Definition statusColor (building_occupancy_rate : option Q) : OccupancyLevel :=
  let occupancyLevel :=
    match JS.truthy building_occupancy_rate with Some r => r | None => 0 end in
  if JS.gtb occupancyLevel 70 then high
  else if JS.gtb occupancyLevel 40 then medium
  else low.

(** ** Room-by-room detail view *)

Module RoomAnalysisDetail.

(** An entry of [allRooms]: the room data with its keys and building name. *)
Record DetailRoom := {
  roomId : string;
  buildingId : string;
  buildingName : string;
  roomData : Room
}.

(** The name of a level as the string the code compares with. *)
Definition levelName (l : OccupancyLevel) : string :=
  match l with
  | high => "high"
  | medium => "medium"
  | low => "low"
  | unknown => "unknown"
  end.

(** [buildingData.building_name || buildingId]. *)
Definition nameOr (building_name buildingId : string) : string :=
  match building_name with
  | EmptyString => buildingId
  | _ => building_name
  end.

(** The rooms collected from all buildings, in order. *)
Definition allRooms (buildings : list (string * Building)) : list DetailRoom :=
  flat_map
    (fun entry : string * Building =>
       let (buildingId, buildingData) := entry in
       map (fun room : string * Room =>
              {| roomId := fst room;
                 buildingId := buildingId;
                 buildingName := nameOr (building_name buildingData) buildingId;
                 roomData := snd room |})
           (room_states buildingData))
    buildings.

(** The rooms shown for a filter level (['all'] or the name of a level). *)
Definition filteredRooms (filterLevel : string) (rooms : list DetailRoom)
  : list DetailRoom :=
  if String.eqb filterLevel "all" then rooms
  else filter (fun room =>
                 String.eqb (levelName (occupancy_level (roomData room))) filterLevel)
              rooms.

Definition getEnergyStatus (energyKw occupancy capacity : Q) : string :=
  let energyPerPerson := if JS.gtb occupancy 0 then energyKw / occupancy else 0 in
  if JS.gtb energyPerPerson 0.08 then "high"
  else if JS.gtb energyPerPerson 0.04 then "medium"
  else "low".

End RoomAnalysisDetail.

(** ** Camera detection history *)

Module MobileCameraDetection.

Record Detection := {
  timestamp : string;
  count : Q;
  level : string
}.

(** [xs.slice(-n)]: the last [n] elements. *)
Definition slice_last {A} (n : nat) (xs : list A) : list A :=
  skipn (List.length xs - n) xs.

(** The update of [detectionHistory] after a detection. *)
Definition addToHistory (prev : list Detection) (entry : Detection) : list Detection :=
  slice_last 10 (prev ++ [entry]).

End MobileCameraDetection.

(** ** Room configuration panel *)

Module RoomConfigPanel.

Record RoomRef := { id : string; name : string }.

(** [Math.ceil(a / b)] on integers, for a positive [b]. *)
Definition ceilDiv (a b : Z) : Z := (- ((- a) / b))%Z.

(** The inner loop: rooms [r], [r + 1], ... of building [b], [n] of them. *)
Fixpoint roomsOf (b : Z) (r : Z) (n : nat) : list RoomRef :=
  match n with
  | O => []
  | S k =>
      {| id := ("b" ++ string_of_nat (Z.to_nat b) ++ "-r"
                ++ string_of_nat (Z.to_nat r))%string;
         name := ("Building " ++ string_of_nat (Z.to_nat b) ++ " - Room "
                  ++ string_of_nat (Z.to_nat r))%string |}
        :: roomsOf b (r + 1) k
  end.

(** The outer loop from building [b], [k] buildings to go: the rooms
    pushed for each building. *)
Fixpoint allocate (k : nat) (b numBuildings numRooms roomsAllocated : Z)
  : list (list RoomRef) :=
  match k with
  | O => []
  | S k' =>
      let remainingBuildings := (numBuildings - (b - 1))%Z in
      let remainingRooms := (numRooms - roomsAllocated)%Z in
      let count := ceilDiv remainingRooms remainingBuildings in
      roomsOf b 1 (Z.to_nat count)
        :: allocate k' (b + 1) numBuildings numRooms (roomsAllocated + count)
  end.

(** [validRoomIds] of the panel that spreads [numRooms] over the
    buildings. *)
Definition validRoomIds (numRooms numBuildings : Z) : list RoomRef :=
  List.concat (allocate (Z.to_nat numBuildings) 1 numBuildings numRooms 0).

End RoomConfigPanel.

(** ** Recommendation card *)

Module RecommendationCard.

Definition is_digit (a : ascii) : bool :=
  ((48 <=? code a) && (code a <=? 57))%nat.

(** The longest run of digits at the start of a text, and the rest. *)
Fixpoint takeDigits (s : string) : string * string :=
  match s with
  | EmptyString => (EmptyString, EmptyString)
  | String a r =>
      if is_digit a
      then let (d, rest) := takeDigits r in (String a d, rest)
      else (EmptyString, s)
  end.

(** The pattern [(\d+)%] tried at the start of a text: its group. *)
Definition digitsPercentAt (s : string) : option string :=
  match takeDigits s with
  | (EmptyString, _) => None
  | (d, String "%" _) => Some d
  | _ => None
  end.

(** [recommendation.match(/(\d+)%/)]: the group of the leftmost match. *)
Fixpoint savingsMatch (s : string) : option string :=
  match digitsPercentAt s with
  | Some d => Some d
  | None =>
      match s with
      | EmptyString => None
      | String _ r => savingsMatch r
      end
  end.

(** [parseInt] of a string of digits. *)
Definition parseInt (digits : string) : Q :=
  inject_Z
    (fold_left (fun n a => (10 * n + Z.of_nat (code a - 48))%Z)
       (list_ascii_of_string digits) 0%Z).

Definition getImpactLevel (savings : option string) : string :=
  match savings with
  | None => "medium"
  | Some savings =>
      let savingsNum := parseInt savings in
      if JS.geb savingsNum 20 then "critical"
      else if JS.geb savingsNum 15 then "high"
      else if JS.geb savingsNum 10 then "medium"
      else "low"
  end.

(** [s.replace(/^\d+\.\s*/, "")]. *)
Definition stripNumber (s : string) : string :=
  match takeDigits s with
  | (EmptyString, _) => s
  | (_, String "." rest) => trimStart rest
  | _ => s
  end.

(** [s.replace(/^- /, "")]. *)
Definition stripDash (s : string) : string :=
  match s with
  | String "-" (String " " rest) => rest
  | _ => s
  end.

(** The text after a prefix matched without regard to case, if any. *)
Fixpoint afterPrefix_i (p s : string) : option string :=
  match p, s with
  | EmptyString, _ => Some s
  | String a p', String b s' =>
      if Ascii.eqb (upper_ascii a) (upper_ascii b) then afterPrefix_i p' s' else None
  | String _ _, EmptyString => None
  end.

(** [s.replace(/^ACTION:\s*/i, "")]. *)
Definition stripAction (s : string) : string :=
  match afterPrefix_i "ACTION:" s with
  | Some rest => trimStart rest
  | None => s
  end.

Definition cleanText (recommendation : string) : string :=
  stripAction (stripDash (stripNumber recommendation)).

(** All characters of a text are digits. *)
Definition all_digits (s : string) : Prop :=
  Forall (fun a => is_digit a = true) (list_ascii_of_string s).

End RecommendationCard.

(** ** Room analysis page *)

(** [xs.sort(compare)]: the sort is stable; it is modelled by stable
    insertion, which gives the order every stable sort gives for a
    comparator that is a consistent ordering. *)
Fixpoint sort_insert {A} (compare : A -> A -> Q) (x : A) (xs : list A) : list A :=
  match xs with
  | [] => [x]
  | y :: ys =>
      if JS.gtb (compare x y) 0 then y :: sort_insert compare x ys
      else x :: xs
  end.

Definition Array_sort {A} (compare : A -> A -> Q) (xs : list A) : list A :=
  fold_right (sort_insert compare) [] xs.

Module RoomAnalysisPage.

(** A room of the page, after [extractRoomData] has filled the defaults;
    [None] is [undefined]. *)
Record RoomData := {
  room_id : option string;
  building_name : option string;
  room_type : option string;
  current_occupancy : Q;
  estimated_energy_kw : Q;
  estimated_water_lph : Q;
  equipment_running : option (list string);
  temperature_comfort : string
}.

(** The [issues] collected by [getRoomPriority]. *)
Definition issues (room : RoomData) : list string :=
  (if negb (Qeq_bool (estimated_energy_kw room) 0)
      && negb (Qeq_bool (current_occupancy room) 0)
      && JS.gtb (estimated_energy_kw room / current_occupancy room) 0.08
   then ["high-energy"%string] else [])
  ++ (if Qeq_bool (current_occupancy room) 0
         && match equipment_running room with
            | Some l => (0 <? List.length l)%nat
            | None => false
            end
      then ["idle-equipment"%string] else [])
  ++ (if String.eqb (temperature_comfort room) "too_hot"
         || String.eqb (temperature_comfort room) "too_cold"
      then ["temperature"%string] else [])
  ++ (if JS.gtb (estimated_water_lph room) 10
         && Qeq_bool (current_occupancy room) 0
      then ["water-waste"%string] else []).

Definition getRoomPriority (room : RoomData) : string :=
  if (0 <? List.length (issues room))%nat then "high" else "medium".

(** The table [priorityOrder] of the sort. *)
Definition priorityOrder (priority : string) : option Q :=
  if String.eqb priority "high" then Some 0
  else if String.eqb priority "medium" then Some 1
  else if String.eqb priority "low" then Some 2
  else None.

(** [priorityOrder[p] || 2]. *)
Definition priorityRank (priority : string) : Q :=
  match JS.truthy (priorityOrder priority) with
  | Some n => n
  | None => 2
  end.

(** [field?.toLowerCase().includes(query)], falsy for [undefined]. *)
Definition fieldIncludes (field : option string) (query : string) : bool :=
  match field with
  | Some s => includes (toLowerCase s) query
  | None => false
  end.

Definition searchFilter (searchQuery : string) (rooms : list RoomData)
  : list RoomData :=
  match trim searchQuery with
  | EmptyString => rooms
  | _ =>
      let query := toLowerCase searchQuery in
      filter (fun room =>
                fieldIncludes (room_id room) query
                || fieldIncludes (building_name room) query
                || fieldIncludes (room_type room) query)
             rooms
  end.

Definition typeFilter (filterType : string) (rooms : list RoomData)
  : list RoomData :=
  if String.eqb filterType "all" then rooms
  else if String.eqb filterType "high-priority"
  then filter (fun room => String.eqb (getRoomPriority room) "high") rooms
  else if String.eqb filterType "low-priority"
  then filter (fun room => negb (String.eqb (getRoomPriority room) "high")) rooms
  else filter (fun room =>
                 match room_type room with
                 | Some t => String.eqb t filterType
                 | None => false
                 end)
              rooms.

(** The comparator of the sort, for each [sortBy]. *)
Definition compareRooms (sortBy : string) (a b : RoomData) : Q :=
  if String.eqb sortBy "priority"
  then priorityRank (getRoomPriority a) - priorityRank (getRoomPriority b)
  else if String.eqb sortBy "occupancy"
  then current_occupancy b - current_occupancy a
  else if String.eqb sortBy "energy"
  then estimated_energy_kw b - estimated_energy_kw a
  else 0.

(** [filterAndSortRooms]: the list given to [setFilteredRooms]. *)
Definition filterAndSortRooms (rooms : list RoomData)
    (searchQuery filterType sortBy : string) : list RoomData :=
  Array_sort (compareRooms sortBy) (typeFilter filterType (searchFilter searchQuery rooms)).

End RoomAnalysisPage.

(** Two rooms of the room analysis page: an occupied lab that draws 7.5 kW
    for 10 occupants and an empty lecture hall. *)
Module RoomAnalysisPageSamples.

Definition lab : RoomAnalysisPage.RoomData :=
  {| RoomAnalysisPage.room_id := Some "sci-001"%string;
     RoomAnalysisPage.building_name := Some "sci"%string;
     RoomAnalysisPage.room_type := Some "lab"%string;
     RoomAnalysisPage.current_occupancy := 10;
     RoomAnalysisPage.estimated_energy_kw := 7.5;
     RoomAnalysisPage.estimated_water_lph := 2;
     RoomAnalysisPage.equipment_running := Some [];
     RoomAnalysisPage.temperature_comfort := "comfortable" |}.

Definition hall : RoomAnalysisPage.RoomData :=
  {| RoomAnalysisPage.room_id := Some "lib-002"%string;
     RoomAnalysisPage.building_name := Some "lib"%string;
     RoomAnalysisPage.room_type := Some "classroom"%string;
     RoomAnalysisPage.current_occupancy := 0;
     RoomAnalysisPage.estimated_energy_kw := 1.2;
     RoomAnalysisPage.estimated_water_lph := 0;
     RoomAnalysisPage.equipment_running := Some [];
     RoomAnalysisPage.temperature_comfort := "comfortable" |}.

End RoomAnalysisPageSamples.

(** All draws are [1/2] but every sixth, which is [9/10]: with an
    occupancy override these are the draws of the rooms' water estimates.
    At noon. *)
Definition wetWorld : World :=
  {| randoms := fun n => if (n mod 6 =? 5)%nat then 9 # 10 else 1 # 2;
     hours := fun _ => 12%Z |}.

(** * Properties *)

(** ** Facts on numbers *)

Lemma ltb_lt x y : JS.ltb x y = true <-> x < y.
Proof.
  unfold JS.ltb. rewrite negb_true_iff, <- not_true_iff_false, Qle_bool_iff.
  split; [apply Qnot_le_lt | apply Qlt_not_le].
Qed.

Lemma gtb_gt x y : JS.gtb x y = true <-> y < x.
Proof. apply ltb_lt. Qed.

Lemma geb_le x y : JS.geb x y = true <-> y <= x.
Proof. apply Qle_bool_iff. Qed.

Lemma geb_false x y : JS.geb x y = false <-> x < y.
Proof.
  rewrite <- not_true_iff_false, geb_le.
  split; [apply Qnot_le_lt | apply Qlt_not_le].
Qed.

Lemma gtb_false x y : JS.gtb x y = false <-> x <= y.
Proof.
  rewrite <- not_true_iff_false, gtb_gt.
  split; [apply Qnot_lt_le | apply Qle_not_lt].
Qed.

Lemma min_le_r x y : JS.min x y <= y.
Proof.
  unfold JS.min. destruct (Qle_bool x y) eqn:E.
  - now apply Qle_bool_iff.
  - apply Qle_refl.
Qed.

(** [percentage >= p] read on the ratio. *)
Lemma percentage_ge (ratio p : Q) : p <= ratio * 100 <-> p / 100 <= ratio.
Proof.
  rewrite <- (Qmult_le_r (p / 100) ratio 100) by reflexivity.
  setoid_replace (p / 100 * 100) with p by field. reflexivity.
Qed.

Lemma percentage_gt (ratio p : Q) : p < ratio * 100 <-> p / 100 < ratio.
Proof.
  rewrite <- (Qmult_lt_r (p / 100) ratio 100) by reflexivity.
  setoid_replace (p / 100 * 100) with p by field. reflexivity.
Qed.

(** ** Occupancy level *)

(** The bands of [getOccupancyLevel], on the ratio. *)
Lemma getOccupancyLevel_bands (occupancy capacity : Q) :
  0 < capacity ->
  (getOccupancyLevel occupancy capacity = high <-> 0.7 <= occupancy / capacity)
  /\ (getOccupancyLevel occupancy capacity = medium
      <-> 0.3 <= occupancy / capacity /\ occupancy / capacity < 0.7)
  /\ (getOccupancyLevel occupancy capacity = low <-> occupancy / capacity < 0.3).
Proof.
  intros Hc. unfold getOccupancyLevel.
  assert (Hz : Qeq_bool capacity 0 = false).
  { apply not_true_iff_false. intros E. apply Qeq_bool_iff in E.
    rewrite E in Hc. discriminate. }
  rewrite Hz. cbv zeta.
  pose proof (percentage_ge (occupancy / capacity) 70) as H70.
  pose proof (percentage_ge (occupancy / capacity) 30) as H30.
  setoid_replace (70 / 100) with 0.7 in H70 by reflexivity.
  setoid_replace (30 / 100) with 0.3 in H30 by reflexivity.
  destruct (JS.geb (occupancy / capacity * 100) 70) eqn:E70.
  - apply geb_le, H70 in E70.
    repeat split; try discriminate; try tauto.
    + intros [_ H]. exfalso. apply (Qlt_not_le _ _ H E70).
    + intros H. exfalso. apply (Qlt_not_le _ _ H).
      apply Qle_trans with 0.7; [discriminate | exact E70].
  - apply geb_false in E70.
    assert (L70 : occupancy / capacity < 0.7).
    { apply Qnot_le_lt. intros H. apply H70 in H. apply (Qlt_not_le _ _ E70 H). }
    destruct (JS.geb (occupancy / capacity * 100) 30) eqn:E30.
    + apply geb_le, H30 in E30.
      repeat split; try discriminate; try tauto.
      * intros H. exfalso. apply (Qlt_not_le _ _ L70 H).
      * intros H. exfalso. apply (Qlt_not_le _ _ H E30).
    + apply geb_false in E30.
      assert (L30 : occupancy / capacity < 0.3).
      { apply Qnot_le_lt. intros H. apply H30 in H. apply (Qlt_not_le _ _ E30 H). }
      repeat split; try discriminate; try tauto.
      * intros H. exfalso. apply (Qlt_not_le _ _ L70 H).
      * intros [H _]. exfalso. apply (Qlt_not_le _ _ L30 H).
Qed.

(** The bands of the generator's own [occupancy_level] expression. *)
Lemma mockOccupancyLevel_bands (occupancyPct : Q) :
  (mockOccupancyLevel occupancyPct = high <-> 70 < occupancyPct)
  /\ (mockOccupancyLevel occupancyPct = medium
      <-> 30 < occupancyPct /\ occupancyPct <= 70)
  /\ (mockOccupancyLevel occupancyPct = low <-> occupancyPct <= 30).
Proof.
  unfold mockOccupancyLevel.
  destruct (JS.gtb occupancyPct 70) eqn:E70.
  - apply gtb_gt in E70.
    repeat split; try discriminate; try tauto.
    + intros [_ H]. exfalso. apply (Qlt_not_le _ _ E70 H).
    + intros H. exfalso. apply (Qlt_not_le _ _ E70).
      apply Qle_trans with 30; [exact H | discriminate].
  - apply gtb_false in E70.
    destruct (JS.gtb occupancyPct 30) eqn:E30.
    + apply gtb_gt in E30.
      repeat split; try discriminate; try tauto.
      * intros H. exfalso. apply (Qlt_not_le _ _ H E70).
      * intros H. exfalso. apply (Qlt_not_le _ _ E30 H).
    + apply gtb_false in E30.
      repeat split; try discriminate; try tauto.
      * intros H. exfalso. apply (Qlt_not_le _ _ H E70).
      * intros [H _]. exfalso. apply (Qlt_not_le _ _ H E30).
Qed.

(** ** The generated room *)

(** The shape of a generated room: its capacity, occupancy, level and
    energy in terms of the draws [avg_or_draw] (the override, or the
    occupancy derived from a draw), [r] (occupancy noise) and [u] (energy
    jitter). *)
Lemma generateMockRoomData_shape roomId buildingId envParams w c :
  let room := fst (generateMockRoomData roomId buildingId envParams w c) in
  exists avgOccupancy k j,
    capacity room = JS.floor (randoms w (nextRandom c) * 40) + 20
    /\ current_occupancy room
       = JS.min (avgOccupancy + JS.floor (randoms w k * 10 - 5)) (capacity room)
    /\ occupancy_level room
       = mockOccupancyLevel (current_occupancy room / capacity room * 100)
    /\ estimated_energy_kw room
       = JS.toFixed 2
           (baseEnergyOf buildingId
            * energyMultiplierOf (current_occupancy room / capacity room * 100) envParams
            * (0.8 + randoms w j * 0.4)).
Proof.
  unfold generateMockRoomData, bind, ret, getTimeBasedOccupancy, getHours, Math_random.
  destruct (JS.truthy (avg_occupancy envParams)) as [a|]; cbn.
  - exists a. do 2 eexists. repeat split.
  - do 3 eexists. repeat split.
Qed.

Lemma floor_nonneg x : 0 <= x -> 0 <= JS.floor x.
Proof.
  intros H. unfold JS.floor.
  change 0 with (inject_Z 0). rewrite <- Zle_Qle.
  change 0%Z with (Qfloor 0). now apply Qfloor_resp_le.
Qed.

(** The capacity of a generated room is at least 20. *)
Lemma generateMockRoomData_capacity roomId buildingId envParams w c :
  fair w ->
  20 <= capacity (fst (generateMockRoomData roomId buildingId envParams w c)).
Proof.
  intros Hw.
  destruct (generateMockRoomData_shape roomId buildingId envParams w c)
    as (a & k & j & Hcap & _).
  rewrite Hcap.
  setoid_replace 20 with (0 + 20) at 1 by reflexivity.
  apply Qplus_le_l, floor_nonneg.
  apply Qmult_le_0_compat; [apply Hw | discriminate].
Qed.

(** C10: every room of the demo-mode generator has
    [current_occupancy <= capacity], whatever the draws, the clock and the
    environmental parameters, an [avg_occupancy] override above the
    capacity included. *)
Theorem generated_occupancy_le_capacity roomId buildingId envParams w c :
  let room := fst (generateMockRoomData roomId buildingId envParams w c) in
  current_occupancy room <= capacity room.
Proof.
  destruct (generateMockRoomData_shape roomId buildingId envParams w c)
    as (a & k & j & _ & Hocc & _).
  cbv zeta. rewrite Hocc. apply min_le_r.
Qed.

(** An override of 1000 occupants is cut down to the capacity. *)
Example override_is_clamped :
  let room := fst (generateMockRoomData "lib-001" "lib" (withOccupancy 1000) evenWorld start) in
  capacity room == 40 /\ current_occupancy room == 40.
Proof. vm_compute. split; reflexivity. Qed.

(** C8: at night, with draws at the low end, the generator returns a room
    whose [current_occupancy] is [-4]: the occupancy noise of [-5] is added
    to an average of [1] and only the upper end is clamped. *)
Theorem generated_occupancy_negative :
  let room := fst (generateMockRoomData "lib-001" "lib" noParams nightWorld start) in
  fair nightWorld /\ capacity room == 20 /\ current_occupancy room == -4
  /\ current_occupancy room < 0.
Proof.
  split; [intros n; split; cbn; [discriminate | reflexivity] |].
  vm_compute. repeat split; reflexivity.
Qed.

(** C1: the generator labels a room at exactly 70% of its capacity
    [medium] and one at exactly 30% [low], while [getOccupancyLevel] gives
    [high] and [medium] for the same rooms. *)
Theorem generated_level_at_band_edges :
  let room70 := fst (generateMockRoomData "sci-001" "sci" (withOccupancy 14) noonWorld start) in
  let room30 := fst (generateMockRoomData "sci-001" "sci" (withOccupancy 6) noonWorld start) in
  fair noonWorld
  /\ (0 < capacity room70 /\ current_occupancy room70 / capacity room70 == 0.7
      /\ occupancy_level room70 = medium
      /\ getOccupancyLevel (current_occupancy room70) (capacity room70) = high)
  /\ (0 < capacity room30 /\ current_occupancy room30 / capacity room30 == 0.3
      /\ occupancy_level room30 = low
      /\ getOccupancyLevel (current_occupancy room30) (capacity room30) = medium).
Proof.
  split; [intros [|n]; split; cbn; (discriminate || reflexivity) |].
  vm_compute. repeat split; reflexivity.
Qed.

(** ** Sums and rounding *)

Lemma fold_sum_acc {A} (f : A -> Q) (xs : list A) (a : Q) :
  fold_left (fun sum x => sum + f x) xs a == a + reduce_sum f xs.
Proof.
  unfold reduce_sum. revert a.
  induction xs as [|x xs IH]; intros a; cbn.
  - ring.
  - rewrite IH, (IH (0 + f x)). ring.
Qed.

Lemma reduce_sum_cons {A} (f : A -> Q) (x : A) (xs : list A) :
  reduce_sum f (x :: xs) == f x + reduce_sum f xs.
Proof.
  unfold reduce_sum at 1. cbn. rewrite fold_sum_acc. ring.
Qed.

(** A sum does not depend on the order of its terms. *)
Lemma reduce_sum_Permutation {A} (f : A -> Q) (xs ys : list A) :
  Permutation xs ys -> reduce_sum f xs == reduce_sum f ys.
Proof.
  induction 1 as [| x xs ys _ IH | x y xs | xs ys zs _ IH1 _ IH2].
  - reflexivity.
  - now rewrite !reduce_sum_cons, IH.
  - rewrite !reduce_sum_cons. ring.
  - now rewrite IH1.
Qed.

Lemma ltb_Qeq x y z : x == y -> JS.ltb x z = JS.ltb y z.
Proof.
  intros E. destruct (JS.ltb y z) eqn:H.
  - apply ltb_lt. apply ltb_lt in H. now rewrite E.
  - apply not_true_iff_false. intros H'. apply not_true_iff_false in H.
    apply H. apply ltb_lt. apply ltb_lt in H'. now rewrite <- E.
Qed.

(** Rounding gives the same number on equal rationals. *)
Lemma toFixed_Qeq d x y : x == y -> JS.toFixed d x = JS.toFixed d y.
Proof.
  intros E. unfold JS.toFixed.
  rewrite (ltb_Qeq x y 0 E).
  assert (F : Qfloor (Qabs x * inject_Z (Z.pos (Z.to_pos (10 ^ Z.of_nat d))) + (1 # 2))
              = Qfloor (Qabs y * inject_Z (Z.pos (Z.to_pos (10 ^ Z.of_nat d))) + (1 # 2))).
  { apply Qfloor_comp. now rewrite E. }
  now rewrite F.
Qed.

Lemma reduce_sum_sumQ {A} (f : A -> Q) (xs : list A) :
  reduce_sum f xs == sumQ (map f xs).
Proof.
  induction xs as [|x xs IH]; [reflexivity|].
  rewrite reduce_sum_cons. cbn. now rewrite IH.
Qed.

(** ** Building rollup *)

(** The fields of a rolled-up building in terms of its rooms. *)
Lemma rollupBuilding_fields buildingId numRooms rooms w c :
  let b := fst (rollupBuilding buildingId numRooms rooms w c) in
  let rs := Object_values rooms in
  room_states b = rooms
  /\ total_energy_kw b = JS.toFixed 2 (sumQ (map estimated_energy_kw rs))
  /\ total_occupancy b == sumQ (map current_occupancy rs)
  /\ total_capacity b == sumQ (map capacity rs)
  /\ occupancy_rate b
     = (if JS.gtb (sumQ (map capacity rs)) 0
        then JS.toFixed 1
               (sumQ (map current_occupancy rs) / sumQ (map capacity rs) * 100)
        else JS.toFixed 1 0).
Proof.
  cbv zeta. unfold rollupBuilding, bind, ret, Math_random. cbn [fst].
  cbn [room_states total_energy_kw total_occupancy total_capacity occupancy_rate].
  split; [reflexivity|].
  split; [apply toFixed_Qeq, reduce_sum_sumQ|].
  split; [apply reduce_sum_sumQ|].
  split; [apply reduce_sum_sumQ|].
  unfold JS.gtb.
  assert (E : JS.ltb 0 (reduce_sum capacity (Object_values rooms))
              = JS.ltb 0 (sumQ (map capacity (Object_values rooms)))).
  { destruct (JS.ltb 0 (sumQ (map capacity (Object_values rooms)))) eqn:H.
    - apply ltb_lt. apply ltb_lt in H. now rewrite reduce_sum_sumQ.
    - apply not_true_iff_false. intros H'. apply not_true_iff_false in H.
      apply H, ltb_lt. apply ltb_lt in H'. now rewrite <- reduce_sum_sumQ. }
  rewrite E.
  destruct (JS.ltb 0 (sumQ (map capacity (Object_values rooms)))); [|reflexivity].
  apply toFixed_Qeq. now rewrite !reduce_sum_sumQ.
Qed.

(** A generated building is the rollup of the rooms it generated. *)
Lemma generateMockBuildingData_is_rollup buildingId envParams w c :
  exists numRooms rooms c',
    generateMockBuildingData buildingId envParams w c
    = rollupBuilding buildingId numRooms rooms w c'.
Proof.
  unfold generateMockBuildingData, bind at 1, Math_random.
  unfold bind at 1.
  destruct (generateRooms _ _ _ _ w _) as [rooms c'].
  now exists (inject_Z (Qfloor (randoms w (nextRandom c) * 8) + 8)), rooms, c'.
Qed.

(** ** Campus rollup *)

(** A generated campus is the rollup of its five generated buildings. *)
Lemma generateMockCampusAnalysis_is_rollup envParams w c :
  generateMockCampusAnalysis envParams w c
  = rollupCampus 5 (fst (generateBuildings buildingIds envParams w c)) w
      (snd (generateBuildings buildingIds envParams w c)).
Proof.
  unfold generateMockCampusAnalysis, bind at 1.
  now destruct (generateBuildings buildingIds envParams w c) as [buildings c'].
Qed.

Lemma rollupCampus_building_states count buildings w c :
  building_states (fst (rollupCampus count buildings w c)) = buildings.
Proof. reflexivity. Qed.

(** The critical list of a rolled-up campus: the buildings above 50 kW. *)
Lemma rollupCampus_critical count buildings w c (id : string) :
  In id (map crit_building_id (critical_buildings (fst (rollupCampus count buildings w c))))
  <-> exists b, In b (Object_values buildings)
                /\ building_id b = id /\ 50 < total_energy_kw b.
Proof.
  unfold rollupCampus, bind, ret, Math_random. cbn [fst critical_buildings].
  rewrite map_map. cbn [toCritical crit_building_id].
  rewrite in_map_iff. split.
  - intros (b & Hid & Hin). apply filter_In in Hin as [Hin Hc].
    exists b. repeat split; trivial. now apply gtb_gt.
  - intros (b & Hin & Hid & He). exists b. split; [exact Hid|].
    apply filter_In. split; [exact Hin|]. now apply gtb_gt.
Qed.

(** C3 (as the code has it): a building of the generated campus is listed
    in [critical_buildings] if and only if its [total_energy_kw] exceeds
    50; its occupancy rate plays no part. *)
Theorem critical_iff_energy_above_50 envParams w c (id : string) :
  let campus := fst (generateMockCampusAnalysis envParams w c) in
  In id (map crit_building_id (critical_buildings campus))
  <-> exists b, In b (Object_values (building_states campus))
                /\ building_id b = id /\ 50 < total_energy_kw b.
Proof.
  cbv zeta.
  rewrite generateMockCampusAnalysis_is_rollup, rollupCampus_building_states.
  apply rollupCampus_critical.
Qed.

(** With every room full, Science Hall, Engineering and the Student Center
    are listed as critical at an occupancy rate of 100%: no energy
    threshold and low-occupancy threshold (at most 100%) describe the
    list. *)
Lemma critical_despite_full_occupancy :
  criticalTable fullCampus
  = [("lib", 30.00, 100.0, false); ("sci", 96.00, 100.0, true);
     ("eng", 78.00, 100.0, true); ("dorm", 18.00, 100.0, false);
     ("cafe", 144.00, 100.0, true)]%string
  /\ ~ (exists energyThreshold lowOccupancy : Q,
          lowOccupancy <= 100
          /\ forall id energy rate listed,
               In (id, energy, rate, listed) (criticalTable fullCampus) ->
               (listed = true <-> energyThreshold < energy /\ rate < lowOccupancy)).
Proof.
  assert (E : criticalTable fullCampus
              = [("lib", 30.00, 100.0, false); ("sci", 96.00, 100.0, true);
                 ("eng", 78.00, 100.0, true); ("dorm", 18.00, 100.0, false);
                 ("cafe", 144.00, 100.0, true)]%string)
    by (vm_compute; reflexivity).
  split; [exact E|].
  rewrite E. intros (eT & oT & Hle & Hall).
  destruct (Hall "cafe"%string 144.00 100.0 true) as [Hlow _].
  { do 4 right. left. reflexivity. }
  destruct (Hlow eq_refl) as [_ Hlt].
  assert (F : 100.0 == 100) by reflexivity.
  rewrite F in Hlt. apply (Qlt_not_le _ _ Hlt Hle).
Qed.

(** The metrics of a rolled-up campus in terms of its buildings. *)
Lemma rollupCampus_fields count buildings w c :
  let m := campus_metrics (fst (rollupCampus count buildings w c)) in
  let bs := Object_values buildings in
  campus_total_energy_kw m = JS.toFixed 2 (sumQ (map total_energy_kw bs))
  /\ campus_total_occupancy m == sumQ (map total_occupancy bs)
  /\ campus_total_capacity m == sumQ (map total_capacity bs)
  /\ campus_total_rooms m == sumQ (map total_rooms bs)
  /\ campus_occupancy_rate m = JS.toFixed 1 (sumQ (map occupancy_rate bs) / count)
  /\ campus_total_water_lph m = JS.toFixed 1 (randoms w (nextRandom c) * 150 + 100)
  /\ estimated_cost_per_hour m
     = JS.toFixed 2 (sumQ (map total_energy_kw bs) * 0.12
                     + campus_total_water_lph m * 0.002).
Proof.
  cbv zeta. unfold rollupCampus, bind, ret, Math_random.
  cbn [fst campus_metrics campus_total_energy_kw campus_total_occupancy
       campus_total_capacity campus_total_rooms campus_occupancy_rate
       campus_total_water_lph estimated_cost_per_hour].
  split; [apply toFixed_Qeq, reduce_sum_sumQ|].
  split; [apply reduce_sum_sumQ|].
  split; [apply reduce_sum_sumQ|].
  split; [apply reduce_sum_sumQ|].
  split; [apply toFixed_Qeq; now rewrite reduce_sum_sumQ|].
  split; [reflexivity|].
  apply toFixed_Qeq. now rewrite reduce_sum_sumQ.
Qed.

(** On the campus of the mixed draws (892 occupants for 1864 places) the
    reported occupancy rate is 47.8, the mean of the buildings' rates,
    where the weighted rate is 47.9; and the reported water total, 160.0,
    is not the sum of the rooms' water estimates. *)
Lemma campus_rate_is_mean_of_rates :
  map occupancy_rate (Object_values (building_states mixedCampus))
  = [46.7; 47.4; 48.3; 48.3; 48.3]
  /\ campus_total_occupancy (campus_metrics mixedCampus) == 892
  /\ campus_total_capacity (campus_metrics mixedCampus) == 1864
  /\ campus_occupancy_rate (campus_metrics mixedCampus) = 47.8
  /\ weightedOccupancyRate mixedCampus = 47.9
  /\ campus_total_water_lph (campus_metrics mixedCampus) = 160.0
  /\ ~ campus_total_water_lph (campus_metrics mixedCampus)
       == sumQ (map estimated_water_lph (allRooms mixedCampus)).
Proof. vm_compute. repeat split; try reflexivity. discriminate. Qed.

(** ** Order of aggregation *)

Lemma gtb_Qeq x y z : x == y -> JS.gtb x z = JS.gtb y z.
Proof.
  intros E. unfold JS.gtb. destruct (JS.ltb z y) eqn:H.
  - apply ltb_lt. apply ltb_lt in H. now rewrite E.
  - apply not_true_iff_false. intros H'. apply not_true_iff_false in H.
    apply H, ltb_lt. apply ltb_lt in H'. now rewrite <- E.
Qed.

Lemma Object_values_Permutation {A} (o o' : list (string * A)) :
  Permutation o o' -> Permutation (Object_values o) (Object_values o').
Proof. apply Permutation_map. Qed.

(** The rollup of a building does not depend on the order of its rooms. *)
Lemma rollupBuilding_Permutation buildingId numRooms rooms rooms' w c :
  Permutation rooms rooms' ->
  let b := fst (rollupBuilding buildingId numRooms rooms w c) in
  let b' := fst (rollupBuilding buildingId numRooms rooms' w c) in
  total_energy_kw b = total_energy_kw b'
  /\ total_occupancy b == total_occupancy b'
  /\ total_capacity b == total_capacity b'
  /\ occupancy_rate b = occupancy_rate b'
  /\ avg_energy_per_room b = avg_energy_per_room b'.
Proof.
  intros P. apply Object_values_Permutation in P.
  pose proof (reduce_sum_Permutation estimated_energy_kw _ _ P) as He.
  pose proof (reduce_sum_Permutation current_occupancy _ _ P) as Ho.
  pose proof (reduce_sum_Permutation capacity _ _ P) as Hc.
  cbv zeta. unfold rollupBuilding, bind, ret, Math_random.
  cbn [fst total_energy_kw total_occupancy total_capacity occupancy_rate
       avg_energy_per_room].
  split; [now apply toFixed_Qeq|].
  split; [exact Ho|].
  split; [exact Hc|].
  split.
  - rewrite (gtb_Qeq _ _ 0 Hc).
    destruct (JS.gtb (reduce_sum capacity (Object_values rooms')) 0);
      [|reflexivity].
    apply toFixed_Qeq. now rewrite Ho, Hc.
  - apply toFixed_Qeq. now rewrite He.
Qed.

(** The rollup of a campus does not depend on the order of its buildings. *)
Lemma rollupCampus_Permutation count buildings buildings' w c :
  Permutation buildings buildings' ->
  let m := campus_metrics (fst (rollupCampus count buildings w c)) in
  let m' := campus_metrics (fst (rollupCampus count buildings' w c)) in
  campus_total_energy_kw m = campus_total_energy_kw m'
  /\ campus_total_water_lph m = campus_total_water_lph m'
  /\ campus_total_occupancy m == campus_total_occupancy m'
  /\ campus_total_capacity m == campus_total_capacity m'
  /\ campus_occupancy_rate m = campus_occupancy_rate m'
  /\ estimated_cost_per_hour m = estimated_cost_per_hour m'.
Proof.
  intros P. apply Object_values_Permutation in P.
  pose proof (reduce_sum_Permutation total_energy_kw _ _ P) as He.
  pose proof (reduce_sum_Permutation total_occupancy _ _ P) as Ho.
  pose proof (reduce_sum_Permutation total_capacity _ _ P) as Hc.
  pose proof (reduce_sum_Permutation occupancy_rate _ _ P) as Hr.
  cbv zeta. unfold rollupCampus, bind, ret, Math_random.
  cbn [fst campus_metrics campus_total_energy_kw campus_total_occupancy
       campus_total_capacity campus_occupancy_rate
       campus_total_water_lph estimated_cost_per_hour].
  split; [now apply toFixed_Qeq|].
  split; [reflexivity|].
  split; [exact Ho|].
  split; [exact Hc|].
  split; apply toFixed_Qeq; [now rewrite Hr | now rewrite He].
Qed.

(** C5: the building totals (energy, occupancy, capacity, occupancy rate)
    are the same for every permutation of the rooms, and the campus totals
    (energy, water, occupancy, capacity, occupancy rate, cost) are the same
    for every permutation of the buildings. *)
Theorem rollup_order_invariant
    buildingId numRooms rooms rooms' count buildings buildings' w c :
  Permutation rooms rooms' ->
  Permutation buildings buildings' ->
  (let b := fst (rollupBuilding buildingId numRooms rooms w c) in
   let b' := fst (rollupBuilding buildingId numRooms rooms' w c) in
   total_energy_kw b = total_energy_kw b'
   /\ total_occupancy b == total_occupancy b'
   /\ total_capacity b == total_capacity b'
   /\ occupancy_rate b = occupancy_rate b')
  /\ (let m := campus_metrics (fst (rollupCampus count buildings w c)) in
      let m' := campus_metrics (fst (rollupCampus count buildings' w c)) in
      campus_total_energy_kw m = campus_total_energy_kw m'
      /\ campus_total_water_lph m = campus_total_water_lph m'
      /\ campus_total_occupancy m == campus_total_occupancy m'
      /\ campus_total_capacity m == campus_total_capacity m'
      /\ campus_occupancy_rate m = campus_occupancy_rate m').
Proof.
  intros Pr Pb. split.
  - pose proof (rollupBuilding_Permutation buildingId numRooms _ _ w c Pr) as H.
    cbv zeta in *. tauto.
  - pose proof (rollupCampus_Permutation count _ _ w c Pb) as H.
    cbv zeta in *. tauto.
Qed.

Lemma rollup_order_invariant_witness :
  occupancy_rate (fst (rollupBuilding "sci" 2 sciRooms evenWorld start))
  = occupancy_rate (fst (rollupBuilding "sci" 2 (rev sciRooms) evenWorld start))
  /\ campus_total_energy_kw
       (campus_metrics (fst (rollupCampus 2 sampleBuildings evenWorld start)))
     = campus_total_energy_kw
         (campus_metrics (fst (rollupCampus 2 (rev sampleBuildings) evenWorld start))).
Proof.
  pose proof (rollup_order_invariant "sci" 2 sciRooms (rev sciRooms)
                2 sampleBuildings (rev sampleBuildings) evenWorld start
                (perm_swap _ _ []) (perm_swap _ _ [])) as H.
  cbv zeta in H. split; apply H.
Defined.

(** ** Energy estimate *)

(** The multiplier built step by step is the product of the factors. *)
Lemma energyMultiplierOf_product (ratio : Q) (envParams : EnvParams) :
  energyMultiplierOf (ratio * 100) envParams == intensityFactor ratio envParams.
Proof.
  unfold energyMultiplierOf, intensityFactor.
  destruct (is_false (lights_on envParams)), (is_false (ac_on envParams)),
    (is_true (fans_on envParams)), (opt_gtb (computers_count envParams) 0);
    field.
Qed.

(** With fans on and a jitter draw of 0.9 the estimate is 6.12 kW, above
    every value [base * intensity * jitter] can take without the factor
    for fans (all are below 5.76); and with the same draws the estimate is
    5.57 kW when the fans are off. *)
Lemma fans_raise_energy_estimate :
  let room := fst (generateMockRoomData "sci-001" "sci" (withFans 20) highWorld start) in
  let plain := fst (generateMockRoomData "sci-001" "sci" (withOccupancy 20) highWorld start) in
  fair highWorld
  /\ current_occupancy room == 24 /\ capacity room == 56
  /\ current_occupancy plain == 24 /\ capacity plain == 56
  /\ estimated_energy_kw room = 6.12
  /\ estimated_energy_kw plain = 5.57
  /\ forall u, 0 <= u -> u < 1 ->
       baseEnergyOf "sci"
       * intensityFactor_without_fans (current_occupancy room / capacity room) (withFans 20)
       * (0.8 + 0.4 * u) < 5.76.
Proof.
  cbv zeta.
  split; [intros n; split; cbn; (discriminate || reflexivity)|].
  do 6 (split; [vm_compute; reflexivity|]).
  intros u H0 H1.
  assert (E : baseEnergyOf "sci"
              * intensityFactor_without_fans
                  (current_occupancy
                     (fst (generateMockRoomData "sci-001" "sci" (withFans 20) highWorld start))
                   / capacity
                       (fst (generateMockRoomData "sci-001" "sci" (withFans 20) highWorld start)))
                  (withFans 20)
              == 4.8) by (vm_compute; reflexivity).
  rewrite E.
  setoid_replace 5.76 with (4.8 * (0.8 + 0.4 * 1)) by reflexivity.
  apply Qmult_lt_l; [reflexivity|].
  apply Qplus_lt_r. apply Qmult_lt_l; [reflexivity | exact H1].
Qed.

(** ** Recommendation filters *)

Lemma prefix_app (p s : string) :
  String.prefix p s = true <-> exists rest, s = (p ++ rest)%string.
Proof.
  revert s. induction p as [|a p IH]; intros s.
  - split; [intros _; now exists s | intros _; now destruct s].
  - destruct s as [|b s]; cbn.
    + split; [discriminate | intros [rest H]; discriminate].
    + destruct (Ascii.ascii_dec a b) as [->|N].
      * rewrite IH. split; intros [rest H]; exists rest.
        -- now rewrite H.
        -- now injection H.
      * split; [discriminate|]. intros [rest H]. injection H as H1 H2.
        now elim N.
Qed.

(** [includes] decides the occurrence of the phrase. *)
Lemma includes_occursIn (s p : string) :
  includes s p = true <-> occursIn p s.
Proof.
  unfold occursIn. induction s as [|a s IH]; cbn [includes].
  - rewrite orb_false_r, prefix_app. split.
    + intros [rest H]. now exists EmptyString, rest.
    + intros ([|b before] & after & H); [now exists after | discriminate].
  - rewrite orb_true_iff, prefix_app, IH. split.
    + intros [[rest H] | (before & after & H)].
      * now exists EmptyString, rest.
      * exists (String a before), after. cbn. now rewrite H.
    + intros ([|b before] & after & H).
      * left. now exists after.
      * right. exists before, after. cbn in H. now injection H.
Qed.

Lemma includes_not_occursIn (s p : string) :
  negb (includes s p) = true <-> ~ occursIn p s.
Proof.
  rewrite negb_true_iff, <- not_true_iff_false. now rewrite includes_occursIn.
Qed.

(** C7 (as the code has it): the room and building-card filter keeps
    exactly the recommendations whose trimmed length is above 10 characters
    and whose lower-cased text contains neither "no immediate" nor
    "operating efficiently"; the recommendation panel keeps exactly those
    whose trimmed length is above 10 and whose lower-cased text contains
    none of "no immediate actions", "operating efficiently" and
    "monitor".  Both are functions of the recommendation list alone. *)
Theorem recommendation_filters_keep (recs : list string) (rec : string) :
  (In rec (filter keepRec recs)
   <-> In rec recs
       /\ (10 < String.length (trim rec))%nat
       /\ ~ occursIn "no immediate" (toLowerCase rec)
       /\ ~ occursIn "operating efficiently" (toLowerCase rec))
  /\ (In rec (filter keepPanel recs)
      <-> In rec recs
          /\ (10 < String.length (trim rec))%nat
          /\ ~ occursIn "no immediate actions" (toLowerCase rec)
          /\ ~ occursIn "operating efficiently" (toLowerCase rec)
          /\ ~ occursIn "monitor" (toLowerCase rec)).
Proof.
  split; rewrite filter_In.
  - unfold keepRec. cbv zeta.
    rewrite !andb_true_iff, !includes_not_occursIn, Nat.ltb_lt. tauto.
  - unfold keepPanel. cbv zeta.
    rewrite !andb_true_iff, !includes_not_occursIn, Nat.ltb_lt. tauto.
Qed.

(** "Dim lights" has exactly 10 characters and none of the phrases, and
    every filter drops it; "Dim lights!" passes. *)
Lemma ten_characters_are_dropped :
  String.length "Dim lights" = 10%nat
  /\ includes (toLowerCase "Dim lights") "no immediate" = false
  /\ includes (toLowerCase "Dim lights") "operating efficiently" = false
  /\ includes (toLowerCase "Dim lights") "monitor" = false
  /\ filter keepRec ["Dim lights"; "Dim lights!"]%string = ["Dim lights!"%string]
  /\ filter keepPanel ["Dim lights"; "Dim lights!"]%string = ["Dim lights!"%string]
  /\ RecommendationPanel (Some ["Dim lights"%string]) = None
  /\ RoomAnalysisDetail_recommendations (Some ["Dim lights"%string]) = None
  /\ BuildingCard_recommendations (Some ["Dim lights"%string]) None = [].
Proof. vm_compute. repeat split; reflexivity. Qed.

(** ** Budget accounting *)

Module RecommenderFacts.
Import Recommender.
Local Open Scope nat_scope.

Section Facts.

Variables mediumCalls highCalls : nat.
Variable boilerplate : string -> bool.
Variable summarize : Entity -> option (list string).

Let step := Recommender.step boilerplate summarize.
Let run := Recommender.run mediumCalls highCalls boilerplate summarize.
Let count := Recommender.budget_to_call_count mediumCalls highCalls.

Let attempted := Recommender.attempted boilerplate summarize.

(** What a run does from any state: the first [tokens_remaining]
    entities are called, the others get the empty list. *)
Lemma fold_step (entities : list Entity) (st : RunState) :
  let st' := fold_left step entities st in
  tokens_remaining st' = tokens_remaining st - List.length entities
  /\ rev (calls st') = rev (calls st) ++ firstn (tokens_remaining st) entities
  /\ rev (results st')
     = rev (results st)
       ++ map attempted (firstn (tokens_remaining st) entities)
       ++ map exhausted (skipn (tokens_remaining st) entities).
Proof.
  revert st. induction entities as [|e es IH]; intros st; cbn [fold_left].
  - cbn. rewrite firstn_nil, skipn_nil, !app_nil_r.
    repeat split. lia.
  - specialize (IH (step st e)). cbv zeta in IH.
    destruct IH as (Ht & Hc & Hr).
    rewrite Ht, Hc, Hr. unfold step, Recommender.step, attempted.
    destruct (tokens_remaining st) as [|n];
      cbn [tokens_remaining calls results rev firstn skipn map];
      rewrite <- ?app_assoc; cbn [app List.length];
      repeat split; lia.
Qed.

Lemma run_calls (b : BudgetLevel) (entities : list Entity) :
  rev (calls (run b entities)) = firstn (count b) entities.
Proof.
  unfold run, Recommender.run.
  now destruct (fold_step entities
                  {| tokens_remaining := count b; calls := []; results := [] |})
    as (_ & Hc & _).
Qed.

Lemma run_results (b : BudgetLevel) (entities : list Entity) :
  rev (results (run b entities))
  = map attempted (firstn (count b) entities)
    ++ map exhausted (skipn (count b) entities).
Proof.
  unfold run, Recommender.run.
  now destruct (fold_step entities
                  {| tokens_remaining := count b; calls := []; results := [] |})
    as (_ & _ & Hr).
Qed.

End Facts.

(** C9: a run with the low budget issues at most 3 external calls, and
    a run with any budget at most its call count, whatever the entities;
    with the high budget and no more entities than its call count every
    entity is called, in priority order; and in every run the entities
    beyond the call count get the empty recommendation list, the ones
    before it the filtered answer of their call or the empty list when
    the call fails. *)
Theorem budget_accounting mediumCalls highCalls boilerplate summarize
    (entities : list Entity) :
  let run := Recommender.run mediumCalls highCalls boilerplate summarize in
  let count := budget_to_call_count mediumCalls highCalls in
  List.length (calls (run low entities)) <= 3
  /\ (forall b, List.length (calls (run b entities)) <= count b)
  /\ (List.length entities <= count high ->
      rev (calls (run high entities)) = entities)
  /\ (forall b,
        rev (results (run b entities))
        = map (attempted boilerplate summarize) (firstn (count b) entities)
          ++ map exhausted (skipn (count b) entities)).
Proof.
  cbv zeta.
  assert (L : forall b,
             List.length (calls (Recommender.run mediumCalls highCalls
                                   boilerplate summarize b entities))
             <= budget_to_call_count mediumCalls highCalls b).
  { intros b. rewrite <- length_rev, run_calls, length_firstn. lia. }
  split; [apply (L low)|]. split; [exact L|]. split.
  - intros H. rewrite run_calls. now apply firstn_all2.
  - intros b. apply run_results.
Qed.

Lemma budget_accounting_witness :
  let entities := priorityOrder RecommenderSamples.infos in
  let run := Recommender.run 8 20 RecommenderSamples.boilerplate
               RecommenderSamples.summarize in
  List.length entities = 13
  /\ rev (calls (run low entities))
     = [CampusEntity; BuildingEntity "sci"; BuildingEntity "cafe"]
  /\ rev (calls (run high entities)) = entities
  /\ firstn 4 (rev (results (run low entities)))
     = [(CampusEntity, ["Consolidate evening classes"%string]);
        (BuildingEntity "sci", []); (BuildingEntity "cafe", []);
        (RoomEntity "sci" "001", [])].
Proof.
  cbv zeta.
  destruct (budget_accounting 8 20 RecommenderSamples.boilerplate
              RecommenderSamples.summarize
              (priorityOrder RecommenderSamples.infos))
    as (_ & _ & Hall & Hres).
  split; [reflexivity|].
  split; [reflexivity|].
  split; [apply Hall; vm_compute; lia|].
  rewrite (Hres low). reflexivity.
Defined.

End RecommenderFacts.

(** * Further properties of the front-end code *)

(** ** Rounding and floors *)

Lemma Qfloor_range (x : Q) (a b : Z) :
  inject_Z a <= x -> x < inject_Z b -> (a <= Qfloor x < b)%Z.
Proof.
  intros Ha Hb. split.
  - rewrite <- (Qfloor_Z a). now apply Qfloor_resp_le.
  - rewrite Zlt_Qlt. apply Qle_lt_trans with x; [apply Qfloor_le | exact Hb].
Qed.

Lemma Qfloor_half (m : Z) : Qfloor (inject_Z m + (1 # 2)) = m.
Proof.
  assert (H : (m <= Qfloor (inject_Z m + (1 # 2)) < m + 1)%Z).
  { apply Qfloor_range.
    - rewrite <- (Qplus_0_r (inject_Z m)) at 1.
      apply Qplus_le_r. discriminate.
    - rewrite inject_Z_plus. apply Qplus_lt_r. reflexivity. }
  lia.
Qed.

(** The scale [10^d] of [toFixed] as a positive number. *)
Lemma scale_pos (d : nat) : 0 < inject_Z (Z.pos (Z.to_pos (10 ^ Z.of_nat d))).
Proof. reflexivity. Qed.

(** Rounding keeps a number between the integers that bound it. *)
Lemma toFixed_bounds (d : nat) (x : Q) (a b : Z) :
  (0 <= a)%Z -> inject_Z a <= x -> x <= inject_Z b ->
  inject_Z a <= JS.toFixed d x /\ JS.toFixed d x <= inject_Z b.
Proof.
  intros Ha Hax Hxb.
  assert (Hx : 0 <= x).
  { apply Qle_trans with (inject_Z a); [|exact Hax].
    change 0 with (inject_Z 0). now rewrite <- Zle_Qle. }
  unfold JS.toFixed.
  set (s := Z.to_pos (10 ^ Z.of_nat d)).
  assert (Hn : JS.ltb x 0 = false).
  { apply not_true_iff_false. intros H. apply ltb_lt in H.
    apply (Qlt_not_le _ _ H Hx). }
  rewrite Hn, (Qabs_pos x Hx).
  assert (La : (a * Z.pos s <= Qfloor (x * inject_Z (Z.pos s) + (1 # 2)))%Z).
  { rewrite <- (Qfloor_half (a * Z.pos s)). apply Qfloor_resp_le.
    apply Qplus_le_l. rewrite inject_Z_mult.
    apply Qmult_le_compat_r; [exact Hax | discriminate]. }
  assert (Lb : (Qfloor (x * inject_Z (Z.pos s) + (1 # 2)) <= b * Z.pos s)%Z).
  { rewrite <- (Qfloor_half (b * Z.pos s)). apply Qfloor_resp_le.
    apply Qplus_le_l. rewrite inject_Z_mult.
    apply Qmult_le_compat_r; [exact Hxb | discriminate]. }
  unfold Qle. cbn [Qnum Qden inject_Z]. split; lia.
Qed.

(** Rounding never lifts a number above a non-negative integer bound. *)
Lemma toFixed_le (d : nat) (x : Q) (b : Z) :
  (0 <= b)%Z -> x <= inject_Z b -> JS.toFixed d x <= inject_Z b.
Proof.
  intros Hb Hxb.
  destruct (JS.ltb x 0) eqn:Hn.
  - unfold JS.toFixed. rewrite Hn.
    set (s := Z.to_pos (10 ^ Z.of_nat d)).
    assert (L : (0 <= Qfloor (Qabs x * inject_Z (Z.pos s) + (1 # 2)))%Z).
    { change 0%Z with (Qfloor 0). apply Qfloor_resp_le.
      apply Qle_trans with (0 + (1 # 2)); [discriminate|].
      apply Qplus_le_l. apply Qmult_le_0_compat; [apply Qabs_nonneg | discriminate]. }
    unfold Qle. cbn [Qnum Qden inject_Z]. nia.
  - assert (Hx : inject_Z 0 <= x).
    { apply Qnot_lt_le. intros H. apply (ltb_lt x 0) in H.
      rewrite H in Hn. discriminate. }
    apply (toFixed_bounds d x 0 b); [lia | exact Hx | exact Hxb].
Qed.

(** ** Invariants of the generated rooms *)

(** The remaining fields of a generated room, in terms of the draws. *)
Lemma generateMockRoomData_extras roomId buildingId envParams w c :
  let room := fst (generateMockRoomData roomId buildingId envParams w c) in
  exists i j occupancyPct energy (maintenance : bool),
    estimated_water_lph room = JS.toFixed 1 (randoms w i * 5)
    /\ savings_potential room = JS.toFixed 1 (randoms w j * 30 + 10)
    /\ recommendations room
       = firstn 3 (ruleRecommendations occupancyPct energy envParams
                   ++ (if maintenance then ["Schedule maintenance check"%string] else [])).
Proof.
  unfold generateMockRoomData, bind, ret, getTimeBasedOccupancy, getHours, Math_random.
  destruct (JS.truthy (avg_occupancy envParams)) as [a|]; cbn;
    do 4 eexists;
    match goal with
    | |- context [if JS.gtb ?r 0.7 then _ else _] =>
        exists (JS.gtb r 0.7); destruct (JS.gtb r 0.7)
    end;
    repeat split; now rewrite ?app_nil_r.
Qed.

(** X1: the capacity of a generated room is a whole number from 20 to 59. *)
Theorem generated_capacity_range roomId buildingId envParams w c :
  fair w ->
  exists n : Z,
    (20 <= n <= 59)%Z
    /\ capacity (fst (generateMockRoomData roomId buildingId envParams w c))
       == inject_Z n.
Proof.
  intros Hw.
  destruct (generateMockRoomData_shape roomId buildingId envParams w c)
    as (a & k & j & Hcap & _).
  rewrite Hcap. unfold JS.floor.
  exists (Qfloor (randoms w (nextRandom c) * 40) + 20)%Z. split.
  - destruct (Hw (nextRandom c)) as [H0 H1].
    assert (H : (0 <= Qfloor (randoms w (nextRandom c) * 40) < 40)%Z).
    { apply Qfloor_range.
      - apply Qmult_le_0_compat; [exact H0 | discriminate].
      - setoid_replace (inject_Z 40) with (1 * 40) by reflexivity.
        apply Qmult_lt_r; [reflexivity | exact H1]. }
    lia.
  - now rewrite inject_Z_plus.
Qed.

Lemma generated_capacity_range_witness :
  exists n : Z,
    (20 <= n <= 59)%Z
    /\ capacity (fst (generateMockRoomData "lib-001" "lib" noParams mixedWorld start))
       == inject_Z n.
Proof.
  apply (generated_capacity_range "lib-001" "lib" noParams mixedWorld start).
  intros n. cbn [mixedWorld randoms]. split.
  - apply Qle_shift_div_l; [reflexivity|]. rewrite Qmult_0_l.
    change 0 with (inject_Z 0). rewrite <- Zle_Qle. lia.
  - apply Qlt_shift_div_r; [reflexivity|].
    setoid_replace (1 * 10) with (inject_Z 10) by reflexivity.
    rewrite <- Zlt_Qlt.
    pose proof (Nat.mod_upper_bound (n * 7) 10). lia.
Defined.

(** X2: the water estimate of a generated room lies between 0 and 5 and
    its savings potential between 10 and 40. *)
Theorem generated_water_and_savings_range roomId buildingId envParams w c :
  fair w ->
  let room := fst (generateMockRoomData roomId buildingId envParams w c) in
  (0 <= estimated_water_lph room /\ estimated_water_lph room <= 5)
  /\ (10 <= savings_potential room /\ savings_potential room <= 40).
Proof.
  intros Hw.
  destruct (generateMockRoomData_extras roomId buildingId envParams w c)
    as (i & j & pct & energy & m & Hwater & Hsav & _).
  cbv zeta. rewrite Hwater, Hsav.
  destruct (Hw i) as [Hi0 Hi1]. destruct (Hw j) as [Hj0 Hj1].
  split.
  - apply (toFixed_bounds 1 _ 0 5); [lia | |].
    + apply Qmult_le_0_compat; [exact Hi0 | discriminate].
    + setoid_replace (inject_Z 5) with (1 * 5) by reflexivity.
      apply Qmult_le_compat_r; [now apply Qlt_le_weak | discriminate].
  - apply (toFixed_bounds 1 _ 10 40); [lia | |].
    + setoid_replace (inject_Z 10) with (0 + 10) by reflexivity.
      apply Qplus_le_l. apply Qmult_le_0_compat; [exact Hj0 | discriminate].
    + setoid_replace (inject_Z 40) with (1 * 30 + 10) by reflexivity.
      apply Qplus_le_l.
      apply Qmult_le_compat_r; [now apply Qlt_le_weak | discriminate].
Qed.

Lemma generated_water_and_savings_range_witness :
  let room := fst (generateMockRoomData "lib-001" "lib" noParams evenWorld start) in
  (0 <= estimated_water_lph room /\ estimated_water_lph room <= 5)
  /\ (10 <= savings_potential room /\ savings_potential room <= 40).
Proof.
  apply (generated_water_and_savings_range "lib-001" "lib" noParams evenWorld start).
  intros n. split; cbn; [discriminate | reflexivity].
Defined.

Lemma filter_all {A} (f : A -> bool) (xs : list A) :
  (forall x, In x xs -> f x = true) -> filter f xs = xs.
Proof.
  induction xs as [|x xs IH]; intros H; cbn; [reflexivity|].
  rewrite (H x (or_introl eq_refl)), IH; [reflexivity|].
  intros y Hy. apply H. now right.
Qed.

Lemma In_firstn {A} (n : nat) (x : A) (xs : list A) :
  In x (firstn n xs) -> In x xs.
Proof.
  revert xs. induction n as [|n IH]; intros [|y ys]; cbn; try tauto.
  intros [H|H]; [now left | right; now apply IH].
Qed.

(** Every recommendation the generator can give passes the room filter. *)
Lemma ruleRecommendations_pass occupancyPct energy envParams (maintenance : bool) rec :
  In rec (ruleRecommendations occupancyPct energy envParams
          ++ (if maintenance then ["Schedule maintenance check"%string] else [])) ->
  keepRec rec = true.
Proof.
  unfold ruleRecommendations.
  destruct (JS.ltb occupancyPct 20 && JS.gtb energy 2),
    (JS.gtb occupancyPct 80),
    (opt_gtb (outdoor_temperature envParams) 35 && negb (is_true (ac_on envParams))),
    (opt_gtb (computers_count envParams) 10), maintenance;
    cbn [app In]; intros H;
    repeat (destruct H as [<-|H]; [vm_compute; reflexivity|]); contradiction.
Qed.

(** X3: a generated room carries at most three recommendations, and the
    room detail view shows all of them: none is dropped by its filter. *)
Theorem generated_recommendations_all_shown roomId buildingId envParams w c :
  let room := fst (generateMockRoomData roomId buildingId envParams w c) in
  (List.length (recommendations room) <= 3)%nat
  /\ filter keepRec (recommendations room) = recommendations room
  /\ RoomAnalysisDetail_recommendations (Some (recommendations room))
     = match recommendations room with [] => None | recs => Some recs end.
Proof.
  destruct (generateMockRoomData_extras roomId buildingId envParams w c)
    as (i & j & pct & energy & m & _ & _ & Hrec).
  cbv zeta. rewrite Hrec.
  assert (F : filter keepRec
                (firstn 3 (ruleRecommendations pct energy envParams
                           ++ (if m then ["Schedule maintenance check"%string] else [])))
              = firstn 3 (ruleRecommendations pct energy envParams
                          ++ (if m then ["Schedule maintenance check"%string] else []))).
  { apply filter_all. intros rec H.
    apply (ruleRecommendations_pass pct energy envParams m), (In_firstn 3), H. }
  split; [apply firstn_le_length|]. split; [exact F|].
  unfold RoomAnalysisDetail_recommendations. now rewrite F.
Qed.

Lemma percentage_le (ratio p : Q) : ratio * 100 <= p <-> ratio <= p / 100.
Proof.
  rewrite <- (Qmult_le_r ratio (p / 100) 100) by reflexivity.
  setoid_replace (p / 100 * 100) with p by field. reflexivity.
Qed.

(** X4: for a generated room the level computed by the room analysis page
    ([getOccupancyLevel]) equals the room's own [occupancy_level] exactly
    when the occupancy ratio is neither 0.7 nor 0.3. *)
Theorem page_level_agrees_off_the_edges roomId buildingId envParams w c :
  fair w ->
  let room := fst (generateMockRoomData roomId buildingId envParams w c) in
  let ratio := current_occupancy room / capacity room in
  getOccupancyLevel (current_occupancy room) (capacity room) = occupancy_level room
  <-> ~ ratio == 0.7 /\ ~ ratio == 0.3.
Proof.
  intros Hw. cbv zeta.
  pose proof (generateMockRoomData_capacity roomId buildingId envParams w c Hw) as Hcap.
  destruct (generateMockRoomData_shape roomId buildingId envParams w c)
    as (a & k & j & _ & _ & Hlevel & _).
  set (room := fst (generateMockRoomData roomId buildingId envParams w c)) in *.
  assert (Hpos : 0 < capacity room).
  { apply Qlt_le_trans with 20; [reflexivity | exact Hcap]. }
  destruct (getOccupancyLevel_bands (current_occupancy room) (capacity room) Hpos)
    as (Gh & Gm & Gl).
  destruct (mockOccupancyLevel_bands (current_occupancy room / capacity room * 100))
    as (Mh & Mm & Ml).
  rewrite <- Hlevel in Mh, Mm, Ml.
  set (ratio := current_occupancy room / capacity room) in *.
  assert (E70 : 70 / 100 == 0.7) by reflexivity.
  assert (E30 : 30 / 100 == 0.3) by reflexivity.
  rewrite (percentage_gt ratio 70), E70 in Mh.
  rewrite (percentage_gt ratio 30), (percentage_le ratio 70), E30, E70 in Mm.
  rewrite (percentage_le ratio 30), E30 in Ml.
  pose proof Mm as Mm'. pose proof Ml as Ml'.
  clear Mm Ml Hlevel.
  destruct (Qlt_le_dec ratio 0.3) as [L3|G3].
  - (* below 0.3: both low *)
    assert (Hl : occupancy_level room = low) by (apply Ml'; now apply Qlt_le_weak).
    rewrite Hl. split.
    + intros _. split; intros E; rewrite E in L3; discriminate.
    + intros _. now apply Gl.
  - destruct (Qeq_dec ratio 0.3) as [E3|N3].
    + (* exactly 0.3: page medium, room low *)
      assert (Hl : occupancy_level room = low) by (apply Ml'; rewrite E3; discriminate).
      assert (Hg : getOccupancyLevel (current_occupancy room) (capacity room) = medium).
      { apply Gm. fold ratio. rewrite E3. split; [discriminate | reflexivity]. }
      rewrite Hl, Hg. split; [discriminate | tauto].
    + assert (S3 : 0.3 < ratio).
      { apply Qnot_le_lt. intros H. apply N3. now apply Qle_antisym. }
      destruct (Qlt_le_dec ratio 0.7) as [L7|G7].
      * (* strictly between: both medium *)
        assert (Hm : occupancy_level room = medium).
        { apply Mm'. split; [exact S3 | now apply Qlt_le_weak]. }
        rewrite Hm. split.
        -- intros _. split; [|exact N3].
           intros E. rewrite E in L7. discriminate.
        -- intros _. apply Gm. fold ratio. split; [exact G3 | exact L7].
      * destruct (Qeq_dec ratio 0.7) as [E7|N7].
        -- (* exactly 0.7: page high, room medium *)
           assert (Hm : occupancy_level room = medium).
           { apply Mm'. rewrite E7. split; [reflexivity | discriminate]. }
           assert (Hg : getOccupancyLevel (current_occupancy room) (capacity room) = high).
           { apply Gh. exact G7. }
           rewrite Hm, Hg. split; [discriminate | tauto].
        -- (* above 0.7: both high *)
           assert (S7 : 0.7 < ratio).
           { apply Qnot_le_lt. intros H. apply N7. now apply Qle_antisym. }
           assert (Hh : occupancy_level room = high) by now apply Mh.
           rewrite Hh. split.
           ++ intros _. split; [exact N7 | exact N3].
           ++ intros _. now apply Gh.
Qed.

Lemma page_level_agrees_off_the_edges_witness :
  let room := fst (generateMockRoomData "lib-001" "lib" noParams evenWorld start) in
  let ratio := current_occupancy room / capacity room in
  getOccupancyLevel (current_occupancy room) (capacity room) = occupancy_level room
  <-> ~ ratio == 0.7 /\ ~ ratio == 0.3.
Proof.
  apply (page_level_agrees_off_the_edges "lib-001" "lib" noParams evenWorld start).
  intros n. split; cbn; [discriminate | reflexivity].
Defined.

(** ** Invariants of the generated buildings *)

Lemma generateRooms_step k i buildingId envParams w c :
  fst (generateRooms (S k) i buildingId envParams w c)
  = ((buildingId ++ "-" ++ padStart0 3 (string_of_nat i))%string,
     fst (generateMockRoomData
            (buildingId ++ "-" ++ padStart0 3 (string_of_nat i))%string
            buildingId envParams w c))
    :: fst (generateRooms k (S i) buildingId envParams w
              (snd (generateMockRoomData
                      (buildingId ++ "-" ++ padStart0 3 (string_of_nat i))%string
                      buildingId envParams w c))).
Proof.
  cbn [generateRooms]. unfold bind at 1.
  destruct (generateMockRoomData _ buildingId envParams w c) as [room c1].
  unfold bind at 1. cbn [fst snd].
  destruct (generateRooms k (S i) buildingId envParams w c1) as [rest c2].
  reflexivity.
Qed.

(** The loop makes [n] rooms, keyed by the building id and the padded
    indices [i], [i + 1], ... *)
Lemma generateRooms_keys n i buildingId envParams w c :
  map fst (fst (generateRooms n i buildingId envParams w c))
  = map (fun k => (buildingId ++ "-" ++ padStart0 3 (string_of_nat k))%string)
        (seq i n).
Proof.
  revert i c. induction n as [|n IH]; intros i c; [reflexivity|].
  rewrite generateRooms_step. cbn [map seq fst]. now rewrite IH.
Qed.

(** What holds of every generated room holds of every room of the loop. *)
Lemma generateRooms_Forall (P : Room -> Prop) n i buildingId envParams w c :
  (forall roomId c', P (fst (generateMockRoomData roomId buildingId envParams w c'))) ->
  Forall P (Object_values (fst (generateRooms n i buildingId envParams w c))).
Proof.
  intros H. revert i c. induction n as [|n IH]; intros i c; [constructor|].
  rewrite generateRooms_step. cbn [Object_values map snd].
  constructor; [apply H | apply IH].
Qed.

(** A generated building, with its room count and rooms made explicit. *)
Lemma generateMockBuildingData_unfold buildingId envParams w c :
  let numRooms := (Qfloor (randoms w (nextRandom c) * 8) + 8)%Z in
  let c1 := {| nextRandom := S (nextRandom c); nextHour := nextHour c |} in
  generateMockBuildingData buildingId envParams w c
  = rollupBuilding buildingId (inject_Z numRooms)
      (fst (generateRooms (Z.to_nat numRooms) 1 buildingId envParams w c1)) w
      (snd (generateRooms (Z.to_nat numRooms) 1 buildingId envParams w c1)).
Proof.
  cbv zeta. unfold generateMockBuildingData, bind at 1, Math_random.
  unfold bind at 1.
  now destruct (generateRooms _ 1 buildingId envParams w _) as [rooms c'].
Qed.

Lemma numRooms_range w n :
  fair w -> (8 <= Qfloor (randoms w n * 8) + 8 <= 15)%Z.
Proof.
  intros Hw. destruct (Hw n) as [H0 H1].
  assert (H : (0 <= Qfloor (randoms w n * 8) < 8)%Z).
  { apply Qfloor_range.
    - apply Qmult_le_0_compat; [exact H0 | discriminate].
    - setoid_replace (inject_Z 8) with (1 * 8) by reflexivity.
      apply Qmult_lt_r; [reflexivity | exact H1]. }
  lia.
Qed.

Lemma string_app_assoc (s t u : string) :
  ((s ++ t) ++ u)%string = (s ++ t ++ u)%string.
Proof. induction s as [|a s IH]; cbn; [reflexivity | now rewrite IH]. Qed.

Lemma string_app_inv_head (p s t : string) :
  (p ++ s)%string = (p ++ t)%string -> s = t.
Proof.
  induction p as [|a p IH]; cbn; intros H; [exact H|].
  injection H as H. now apply IH.
Qed.

(** The padded indices 1 to 15 are pairwise distinct. *)
Lemma padded_indices_NoDup :
  NoDup (map (fun k => padStart0 3 (string_of_nat k)) (seq 1 15)).
Proof.
  cbv. repeat (constructor; [intros H; repeat (destruct H as [H|H]; [discriminate|]); exact H|]).
  constructor.
Qed.

Lemma NoDup_map_prefix {A} (f g : A -> string) (p : string) (xs : list A) :
  (forall x, f x = (p ++ g x)%string) ->
  NoDup (map g xs) -> NoDup (map f xs).
Proof.
  intros Hf. induction xs as [|x xs IH]; cbn; intros H; [constructor|].
  inversion H as [|? ? Hx Hxs]; subst. constructor; [|now apply IH].
  rewrite in_map_iff in *. intros (y & Hy & Hin). apply Hx.
  exists y. split; [|exact Hin].
  rewrite !Hf in Hy. now apply string_app_inv_head in Hy.
Qed.

(** The rooms generated for a building, with the count made explicit. *)
Lemma generateMockBuildingData_room_states buildingId envParams w c :
  room_states (fst (generateMockBuildingData buildingId envParams w c))
  = fst (generateRooms (Z.to_nat (Qfloor (randoms w (nextRandom c) * 8) + 8)) 1
           buildingId envParams w
           {| nextRandom := S (nextRandom c); nextHour := nextHour c |}).
Proof. rewrite generateMockBuildingData_unfold. reflexivity. Qed.

Lemma generateRooms_length n i buildingId envParams w c :
  List.length (fst (generateRooms n i buildingId envParams w c)) = n.
Proof.
  rewrite <- (length_map fst), generateRooms_keys, length_map. apply length_seq.
Qed.

(** The room count of a generated building. *)
Lemma generateMockBuildingData_room_count buildingId envParams w c :
  fair w ->
  let b := fst (generateMockBuildingData buildingId envParams w c) in
  (8 <= List.length (room_states b) <= 15)%nat
  /\ total_rooms b == inject_Z (Z.of_nat (List.length (room_states b))).
Proof.
  intros Hw. cbv zeta. rewrite generateMockBuildingData_room_states.
  rewrite generateRooms_length.
  pose proof (numRooms_range w (nextRandom c) Hw) as Hn.
  split; [lia|].
  rewrite generateMockBuildingData_unfold. cbv zeta.
  unfold rollupBuilding, bind, ret, Math_random. cbn [fst total_rooms].
  rewrite Z2Nat.id by lia. reflexivity.
Qed.

(** X5: a generated building has between 8 and 15 rooms; [total_rooms] is
    the number of entries of [room_states], and the room ids are pairwise
    distinct, so no room overwrites another. *)
Theorem generated_building_rooms buildingId envParams w c :
  fair w ->
  let b := fst (generateMockBuildingData buildingId envParams w c) in
  (8 <= List.length (room_states b) <= 15)%nat
  /\ total_rooms b == inject_Z (Z.of_nat (List.length (room_states b)))
  /\ NoDup (map fst (room_states b)).
Proof.
  intros Hw. cbv zeta.
  destruct (generateMockBuildingData_room_count buildingId envParams w c Hw)
    as [Hlen Htotal].
  split; [exact Hlen|]. split; [exact Htotal|].
  rewrite generateMockBuildingData_room_states, generateRooms_keys.
  pose proof (numRooms_range w (nextRandom c) Hw) as Hn.
  set (n := Z.to_nat (Qfloor (randoms w (nextRandom c) * 8) + 8)).
  apply (NoDup_map_prefix _ (fun k => padStart0 3 (string_of_nat k))
           (buildingId ++ "-")%string).
  - intros k. now rewrite string_app_assoc.
  - pose proof padded_indices_NoDup as H.
    replace 15%nat with (n + (15 - n))%nat in H by (unfold n; lia).
    rewrite seq_app, map_app in H. now apply NoDup_app_remove_r in H.
Qed.

Lemma generated_building_rooms_witness :
  let b := fst (generateMockBuildingData "lib" noParams evenWorld start) in
  (8 <= List.length (room_states b) <= 15)%nat
  /\ total_rooms b == inject_Z (Z.of_nat (List.length (room_states b)))
  /\ NoDup (map fst (room_states b)).
Proof.
  apply (generated_building_rooms "lib" noParams evenWorld start).
  intros n. split; cbn; [discriminate | reflexivity].
Defined.

(** What every generated room satisfies: occupancy within capacity, a
    capacity of at least 20, and a level read off the percentage. *)
Lemma generated_room_invariant roomId buildingId envParams w c :
  fair w ->
  let room := fst (generateMockRoomData roomId buildingId envParams w c) in
  current_occupancy room <= capacity room
  /\ 20 <= capacity room
  /\ occupancy_level room
     = mockOccupancyLevel (current_occupancy room / capacity room * 100).
Proof.
  intros Hw. cbv zeta.
  pose proof (generateMockRoomData_capacity roomId buildingId envParams w c Hw) as Hcap.
  destruct (generateMockRoomData_shape roomId buildingId envParams w c)
    as (a & k & j & _ & Hocc & Hlevel & _).
  split; [rewrite Hocc; apply min_le_r|]. now split.
Qed.

Lemma sum_scaled_le (k : Q) (rs : list Room) :
  Forall (fun r => current_occupancy r <= k * capacity r) rs ->
  sumQ (map current_occupancy rs) <= k * sumQ (map capacity rs).
Proof.
  induction 1 as [|r rs Hr _ IH]; cbn.
  - rewrite Qmult_0_r. apply Qle_refl.
  - rewrite Qmult_plus_distr_r. now apply Qplus_le_compat.
Qed.

(** The rate of a rollup whose rooms are all filled to at most [k] times
    their capacity is at most [100 k], for a whole [100 k >= 0]. *)
Lemma rollupBuilding_rate_le (k : Q) (bound : Z) buildingId numRooms rooms w c :
  (0 <= bound)%Z -> k * 100 == inject_Z bound ->
  Forall (fun r => current_occupancy r <= k * capacity r) (Object_values rooms) ->
  occupancy_rate (fst (rollupBuilding buildingId numRooms rooms w c))
  <= inject_Z bound.
Proof.
  intros Hb Hk Hall.
  destruct (rollupBuilding_fields buildingId numRooms rooms w c)
    as (_ & _ & _ & _ & Hrate).
  rewrite Hrate.
  destruct (JS.gtb (sumQ (map capacity (Object_values rooms))) 0) eqn:Hpos.
  - apply gtb_gt in Hpos. apply toFixed_le; [exact Hb|].
    rewrite <- Hk. apply Qmult_le_compat_r; [|discriminate].
    apply Qle_shift_div_r; [exact Hpos|]. now apply sum_scaled_le.
  - apply toFixed_le; [exact Hb|].
    change 0 with (inject_Z 0). rewrite <- Zle_Qle. exact Hb.
Qed.

Lemma statusColor_low (rate : Q) : rate <= 40 -> statusColor (Some rate) = low.
Proof.
  intros H. unfold statusColor, JS.truthy.
  assert (G : forall x, x <= 40 -> JS.gtb x 70 = false /\ JS.gtb x 40 = false).
  { intros x Hx. split; apply gtb_false; [|exact Hx].
    apply Qle_trans with 40; [exact Hx | discriminate]. }
  destruct (Qeq_bool rate 0).
  - now destruct (G 0) as [-> ->].
  - now destruct (G rate H) as [-> ->].
Qed.

(** X6: the occupancy rate of a generated building never exceeds 100; and
    when every room of the building is labelled [low], the rate is at most
    30 and the building card shows the status [low] (the pill Optimal). *)
Theorem generated_building_rate_bounds buildingId envParams w c :
  fair w ->
  let b := fst (generateMockBuildingData buildingId envParams w c) in
  occupancy_rate b <= 100
  /\ (Forall (fun r => occupancy_level r = low) (Object_values (room_states b)) ->
      occupancy_rate b <= 30 /\ statusColor (Some (occupancy_rate b)) = low).
Proof.
  intros Hw. cbv zeta. rewrite generateMockBuildingData_unfold. cbv zeta.
  set (numRooms := (Qfloor (randoms w (nextRandom c) * 8) + 8)%Z).
  set (c1 := {| nextRandom := S (nextRandom c); nextHour := nextHour c |}).
  set (rooms := fst (generateRooms (Z.to_nat numRooms) 1 buildingId envParams w c1)).
  set (c2 := snd (generateRooms (Z.to_nat numRooms) 1 buildingId envParams w c1)).
  assert (Inv : Forall (fun room =>
                          current_occupancy room <= capacity room
                          /\ 20 <= capacity room
                          /\ occupancy_level room
                             = mockOccupancyLevel
                                 (current_occupancy room / capacity room * 100))
                       (Object_values rooms)).
  { apply generateRooms_Forall. intros roomId c'.
    now apply generated_room_invariant. }
  split.
  - apply (rollupBuilding_rate_le 1 100); [lia | reflexivity |].
    rewrite Forall_forall in *. intros r Hr.
    destruct (Inv r Hr) as (Hocc & _). now rewrite Qmult_1_l.
  - intros Hlow.
    assert (R : occupancy_rate (fst (rollupBuilding buildingId (inject_Z numRooms)
                                       rooms w c2)) <= 30).
    { apply (rollupBuilding_rate_le 0.3 30); [lia | reflexivity |].
      destruct (rollupBuilding_fields buildingId (inject_Z numRooms) rooms w c2)
        as (Hrooms & _).
      rewrite Hrooms in Hlow.
      rewrite Forall_forall in *. intros r Hr.
      destruct (Inv r Hr) as (_ & Hcap & Hlevel).
      specialize (Hlow r Hr). rewrite Hlevel in Hlow.
      apply mockOccupancyLevel_bands in Hlow.
      apply percentage_le in Hlow.
      assert (Hpos : 0 < capacity r).
      { apply Qlt_le_trans with 20; [reflexivity | exact Hcap]. }
      apply (Qmult_le_r _ _ (capacity r) Hpos) in Hlow.
      setoid_replace (current_occupancy r / capacity r * capacity r)
        with (current_occupancy r) in Hlow
        by (field; intros E; rewrite E in Hpos; discriminate).
      setoid_replace (0.3 * capacity r) with (30 / 100 * capacity r)
        by (apply Qmult_comp; reflexivity).
      exact Hlow. }
    split; [exact R|]. apply statusColor_low.
    apply Qle_trans with 30; [exact R | discriminate].
Qed.

Lemma generated_building_rate_bounds_witness :
  occupancy_rate (fst (generateMockBuildingData "lib" noParams evenWorld start)) <= 100.
Proof.
  apply (generated_building_rate_bounds "lib" noParams evenWorld start).
  intros n. split; cbn; [discriminate | reflexivity].
Defined.

Lemma rollupBuilding_recommendations buildingId numRooms rooms w c :
  building_recommendations (fst (rollupBuilding buildingId numRooms rooms w c))
  = [("Close floors with <20% occupancy → Save "
        ++ string_of_nat (Z.to_nat (Qfloor (randoms w (nextRandom c) * 15 + 10)))
        ++ " kW")%string;
     "Enable smart HVAC scheduling"%string;
     "Consolidate activities to fewer zones"%string].
Proof. reflexivity. Qed.

(** The first building recommendation passes the card's filter for every
    saving it can announce. *)
Lemma close_floors_passes (n : nat) :
  (10 <= n <= 25)%nat ->
  keepRec ("Close floors with <20% occupancy → Save " ++ string_of_nat n ++ " kW")
  = true.
Proof.
  intros H.
  assert (Hin : In n (seq 10 16)) by (apply in_seq; lia).
  cbn in Hin.
  repeat (destruct Hin as [<-|Hin]; [vm_compute; reflexivity|]).
  contradiction.
Qed.

(** X7: the card of a generated building lists exactly two
    recommendations: the floor-closing one, announcing a saving between 10
    and 25 kW (25 only where the floating-point sum of the largest draw
    rounds up to it), and the smart HVAC scheduling one. *)
Theorem generated_building_card_recommendations buildingId envParams w c :
  fair w ->
  let b := fst (generateMockBuildingData buildingId envParams w c) in
  exists n : nat,
    (10 <= n <= 25)%nat
    /\ BuildingCard_recommendations (Some (building_recommendations b)) None
       = [("Close floors with <20% occupancy → Save " ++ string_of_nat n ++ " kW")%string;
          "Enable smart HVAC scheduling"%string].
Proof.
  intros Hw. cbv zeta. rewrite generateMockBuildingData_unfold. cbv zeta.
  rewrite rollupBuilding_recommendations.
  match goal with
  | |- context [Qfloor (randoms w ?k * 15 + 10)] => set (r := randoms w k);
      destruct (Hw k) as [H0 H1]; fold r in H0, H1
  end.
  assert (Hn : (10 <= Qfloor (r * 15 + 10) < 25)%Z).
  { apply Qfloor_range.
    - setoid_replace (inject_Z 10) with (0 + 10) by reflexivity.
      apply Qplus_le_l. apply Qmult_le_0_compat; [exact H0 | discriminate].
    - setoid_replace (inject_Z 25) with (1 * 15 + 10) by reflexivity.
      apply Qplus_lt_l. apply Qmult_lt_r; [reflexivity | exact H1]. }
  exists (Z.to_nat (Qfloor (r * 15 + 10))). split; [lia|].
  unfold BuildingCard_recommendations. cbn [filter].
  rewrite close_floors_passes by lia.
  reflexivity.
Qed.

Lemma generated_building_card_recommendations_witness :
  exists n : nat,
    (10 <= n <= 25)%nat
    /\ BuildingCard_recommendations
         (Some (building_recommendations
                  (fst (generateMockBuildingData "lib" noParams evenWorld start))))
         None
       = [("Close floors with <20% occupancy → Save " ++ string_of_nat n ++ " kW")%string;
          "Enable smart HVAC scheduling"%string].
Proof.
  apply (generated_building_card_recommendations "lib" noParams evenWorld start).
  intros n. split; cbn; [discriminate | reflexivity].
Defined.

(** ** Invariants of the generated campus *)

Lemma generateBuildings_step id ids envParams w c :
  fst (generateBuildings (id :: ids) envParams w c)
  = (id, fst (generateMockBuildingData id envParams w c))
    :: fst (generateBuildings ids envParams w
              (snd (generateMockBuildingData id envParams w c))).
Proof.
  cbn [generateBuildings]. unfold bind at 1.
  destruct (generateMockBuildingData id envParams w c) as [b c1].
  unfold bind at 1. cbn [fst snd].
  destruct (generateBuildings ids envParams w c1) as [rest c2].
  reflexivity.
Qed.

(** What holds of every generated building holds of every building of the
    campus. *)
Lemma generateBuildings_Forall (P : Building -> Prop) ids envParams w c :
  (forall id c', P (fst (generateMockBuildingData id envParams w c'))) ->
  Forall P (Object_values (fst (generateBuildings ids envParams w c))).
Proof.
  intros H. revert c. induction ids as [|id ids IH]; intros c; [constructor|].
  rewrite generateBuildings_step. cbn [Object_values map snd].
  constructor; [apply H | apply IH].
Qed.

Lemma generateBuildings_length ids envParams w c :
  List.length (fst (generateBuildings ids envParams w c)) = List.length ids.
Proof.
  revert c. induction ids as [|id ids IH]; intros c; [reflexivity|].
  rewrite generateBuildings_step. cbn [List.length]. now rewrite IH.
Qed.

(** The detail view lists the rooms of all buildings. *)
Lemma allRooms_length (buildings : list (string * Building)) :
  List.length (RoomAnalysisDetail.allRooms buildings)
  = list_sum (map (fun b => List.length (room_states b)) (Object_values buildings)).
Proof.
  unfold RoomAnalysisDetail.allRooms.
  induction buildings as [|[bid b] bs IH]; [reflexivity|].
  cbn [flat_map Object_values map snd list_sum].
  rewrite length_app, length_map. unfold Object_values in IH. now rewrite IH.
Qed.

Lemma sum_of_room_counts (bs : list Building) :
  Forall (fun b => (8 <= List.length (room_states b) <= 15)%nat
                   /\ total_rooms b
                      == inject_Z (Z.of_nat (List.length (room_states b)))) bs ->
  sumQ (map total_rooms bs)
  == inject_Z (Z.of_nat (list_sum (map (fun b => List.length (room_states b)) bs)))
  /\ (8 * List.length bs
      <= list_sum (map (fun b => List.length (room_states b)) bs)
      <= 15 * List.length bs)%nat.
Proof.
  induction 1 as [|b bs [Hn Ht] _ [IH1 IH2]].
  - split; [reflexivity | cbn; lia].
  - set (len := fun b : Building => List.length (room_states b)) in *.
    change (list_sum (map len (b :: bs))) with (len b + list_sum (map len bs))%nat.
    change (sumQ (map total_rooms (b :: bs)))
      with (total_rooms b + sumQ (map total_rooms bs)).
    split; [|cbn [List.length]; unfold len at 1 3; lia].
    rewrite Ht, IH1, Nat2Z.inj_add, inject_Z_plus. reflexivity.
Qed.

(** The three level filters split a list of rooms none of which has the
    level [unknown]. *)
Lemma level_filters_split (rooms : list RoomAnalysisDetail.DetailRoom) :
  Forall (fun room => occupancy_level (RoomAnalysisDetail.roomData room) <> unknown)
         rooms ->
  (List.length (RoomAnalysisDetail.filteredRooms "high" rooms)
   + List.length (RoomAnalysisDetail.filteredRooms "medium" rooms)
   + List.length (RoomAnalysisDetail.filteredRooms "low" rooms)
   = List.length rooms)%nat.
Proof.
  change (RoomAnalysisDetail.filteredRooms "high" rooms)
    with (filter (fun room => String.eqb (RoomAnalysisDetail.levelName
                    (occupancy_level (RoomAnalysisDetail.roomData room))) "high") rooms).
  change (RoomAnalysisDetail.filteredRooms "medium" rooms)
    with (filter (fun room => String.eqb (RoomAnalysisDetail.levelName
                    (occupancy_level (RoomAnalysisDetail.roomData room))) "medium") rooms).
  change (RoomAnalysisDetail.filteredRooms "low" rooms)
    with (filter (fun room => String.eqb (RoomAnalysisDetail.levelName
                    (occupancy_level (RoomAnalysisDetail.roomData room))) "low") rooms).
  induction 1 as [|room rooms Hr _ IH]; [reflexivity|].
  cbn [filter].
  destruct (occupancy_level (RoomAnalysisDetail.roomData room));
    try contradiction; simpl; lia.
Qed.

Lemma mockOccupancyLevel_known (occupancyPct : Q) :
  mockOccupancyLevel occupancyPct <> unknown.
Proof.
  unfold mockOccupancyLevel.
  destruct (JS.gtb occupancyPct 70), (JS.gtb occupancyPct 30); discriminate.
Qed.

(** The rooms of a generated building all have a level other than
    [unknown]. *)
Lemma generateMockBuildingData_levels buildingId envParams w c :
  Forall (fun r => occupancy_level r <> unknown)
    (Object_values (room_states (fst (generateMockBuildingData buildingId envParams w c)))).
Proof.
  rewrite generateMockBuildingData_unfold. cbv zeta.
  change (room_states (fst (rollupBuilding ?a ?b ?rooms ?w ?c))) with rooms.
  apply generateRooms_Forall. intros roomId c'.
  destruct (generateMockRoomData_shape roomId buildingId envParams w c')
    as (a & k & j & _ & _ & Hlevel & _).
  rewrite Hlevel. apply mockOccupancyLevel_known.
Qed.

Lemma allRooms_Forall (P : Room -> Prop) (buildings : list (string * Building)) :
  Forall (fun b => Forall P (Object_values (room_states b))) (Object_values buildings) ->
  Forall (fun room => P (RoomAnalysisDetail.roomData room))
         (RoomAnalysisDetail.allRooms buildings).
Proof.
  unfold RoomAnalysisDetail.allRooms.
  induction buildings as [|[bid b] bs IH]; intros H; [constructor|].
  cbn [Object_values map snd] in H. inversion H as [|? ? Hb Hbs]; subst.
  cbn [flat_map]. apply Forall_app. split; [|now apply IH].
  unfold Object_values in Hb. rewrite Forall_forall in *.
  intros room Hin. apply in_map_iff in Hin as (entry & <- & Hin).
  cbn [RoomAnalysisDetail.roomData]. apply Hb. now apply in_map.
Qed.

(** X8: for a generated campus, [total_rooms] is the number of rooms the
    room-by-room view lists, between 40 and 75, and the counts on the
    high, medium and low filter buttons add up to that number. *)
Theorem generated_campus_room_counts envParams w c :
  fair w ->
  let campus := fst (generateMockCampusAnalysis envParams w c) in
  let rooms := RoomAnalysisDetail.allRooms (building_states campus) in
  campus_total_rooms (campus_metrics campus)
  == inject_Z (Z.of_nat (List.length rooms))
  /\ (40 <= List.length rooms <= 75)%nat
  /\ (List.length (RoomAnalysisDetail.filteredRooms "high" rooms)
      + List.length (RoomAnalysisDetail.filteredRooms "medium" rooms)
      + List.length (RoomAnalysisDetail.filteredRooms "low" rooms)
      = List.length rooms)%nat.
Proof.
  intros Hw. cbv zeta.
  rewrite generateMockCampusAnalysis_is_rollup, rollupCampus_building_states.
  set (bs := fst (generateBuildings buildingIds envParams w c)).
  set (c' := snd (generateBuildings buildingIds envParams w c)).
  destruct (rollupCampus_fields 5 bs w c') as (_ & _ & _ & Hrooms & _).
  assert (Hcount : Forall (fun b => (8 <= List.length (room_states b) <= 15)%nat
                            /\ total_rooms b
                               == inject_Z (Z.of_nat (List.length (room_states b))))
                          (Object_values bs)).
  { apply generateBuildings_Forall. intros id c1.
    apply (generateMockBuildingData_room_count id envParams w c1 Hw). }
  destruct (sum_of_room_counts _ Hcount) as [Hsum Hrange].
  assert (Hlen : List.length (Object_values bs) = 5%nat).
  { unfold Object_values. rewrite length_map. apply generateBuildings_length. }
  rewrite Hlen in Hrange.
  rewrite allRooms_length.
  split; [now rewrite Hrooms, Hsum|]. split; [lia|].
  rewrite <- allRooms_length. apply level_filters_split.
  apply (allRooms_Forall (fun r => occupancy_level r <> unknown)).
  apply generateBuildings_Forall.
  intros id c1. apply generateMockBuildingData_levels.
Qed.

Lemma generated_campus_room_counts_witness :
  let rooms := RoomAnalysisDetail.allRooms (building_states fullCampus) in
  campus_total_rooms (campus_metrics fullCampus)
  == inject_Z (Z.of_nat (List.length rooms))
  /\ (40 <= List.length rooms <= 75)%nat
  /\ (List.length (RoomAnalysisDetail.filteredRooms "high" rooms)
      + List.length (RoomAnalysisDetail.filteredRooms "medium" rooms)
      + List.length (RoomAnalysisDetail.filteredRooms "low" rooms)
      = List.length rooms)%nat.
Proof.
  apply (generated_campus_room_counts (withOccupancy 100) evenWorld start).
  intros n. split; cbn; [discriminate | reflexivity].
Defined.

(** X9: the water total of a generated campus lies between 100 and 250
    and its potential savings between 18 and 33 percent. *)
Theorem generated_campus_water_range envParams w c :
  fair w ->
  let m := campus_metrics (fst (generateMockCampusAnalysis envParams w c)) in
  (100 <= campus_total_water_lph m /\ campus_total_water_lph m <= 250)
  /\ (18 <= potential_savings_percent m /\ potential_savings_percent m <= 33).
Proof.
  intros Hw. cbv zeta. rewrite generateMockCampusAnalysis_is_rollup.
  unfold rollupCampus, bind, ret, Math_random.
  cbn [fst campus_metrics campus_total_water_lph potential_savings_percent nextRandom].
  split.
  - match goal with |- context [randoms w ?k] => destruct (Hw k) as [H0 H1] end.
    apply (toFixed_bounds 1 _ 100 250); [lia | |].
    + setoid_replace (inject_Z 100) with (0 + 100) by reflexivity.
      apply Qplus_le_l. apply Qmult_le_0_compat; [exact H0 | discriminate].
    + setoid_replace (inject_Z 250) with (1 * 150 + 100) by reflexivity.
      apply Qplus_le_l.
      apply Qmult_le_compat_r; [now apply Qlt_le_weak | discriminate].
  - match goal with |- context [randoms w ?k] => destruct (Hw k) as [H0 H1] end.
    apply (toFixed_bounds 1 _ 18 33); [lia | |].
    + setoid_replace (inject_Z 18) with (0 + 18) by reflexivity.
      apply Qplus_le_l. apply Qmult_le_0_compat; [exact H0 | discriminate].
    + setoid_replace (inject_Z 33) with (1 * 15 + 18) by reflexivity.
      apply Qplus_le_l.
      apply Qmult_le_compat_r; [now apply Qlt_le_weak | discriminate].
Qed.

Lemma generated_campus_water_range_witness :
  let m := campus_metrics fullCampus in
  (100 <= campus_total_water_lph m /\ campus_total_water_lph m <= 250)
  /\ (18 <= potential_savings_percent m /\ potential_savings_percent m <= 33).
Proof.
  apply (generated_campus_water_range (withOccupancy 100) evenWorld start).
  intros n. split; cbn; [discriminate | reflexivity].
Defined.

(** ** Room-by-room detail view *)

(** The bands of the energy status of an occupied room. *)
Lemma getEnergyStatus_bands (energyKw occupancy capacity : Q) :
  0 < occupancy ->
  (RoomAnalysisDetail.getEnergyStatus energyKw occupancy capacity = "high"%string
   <-> 0.08 < energyKw / occupancy)
  /\ (RoomAnalysisDetail.getEnergyStatus energyKw occupancy capacity = "low"%string
      <-> energyKw / occupancy <= 0.04).
Proof.
  intros H. unfold RoomAnalysisDetail.getEnergyStatus.
  assert (E : JS.gtb occupancy 0 = true) by now apply gtb_gt.
  rewrite E. cbv zeta.
  destruct (JS.gtb (energyKw / occupancy) 0.08) eqn:H8.
  - apply gtb_gt in H8. split; split; try discriminate; try tauto.
    intros L. exfalso. apply (Qlt_not_le _ _ H8).
    apply Qle_trans with 0.04; [exact L | discriminate].
  - apply gtb_false in H8.
    destruct (JS.gtb (energyKw / occupancy) 0.04) eqn:H4.
    + apply gtb_gt in H4. split; split; try discriminate.
      * intros L. exfalso. apply (Qlt_not_le _ _ L H8).
      * intros L. exfalso. apply (Qlt_not_le _ _ H4 L).
    + apply gtb_false in H4. split; split; try discriminate; try tauto.
      intros L. exfalso. apply (Qlt_not_le _ _ L H8).
Qed.

Lemma ratio_gt (e o k : Q) : 0 < o -> (k < e / o <-> k * o < e).
Proof.
  intros H. rewrite <- (Qmult_lt_r k (e / o) o H).
  setoid_replace (e / o * o) with e; [reflexivity|].
  field. intros E. rewrite E in H. discriminate.
Qed.

(** When the energy status is [high]. *)
Lemma getEnergyStatus_high (energyKw occupancy capacity : Q) :
  RoomAnalysisDetail.getEnergyStatus energyKw occupancy capacity = "high"%string
  <-> 0 < occupancy /\ 0.08 * occupancy < energyKw.
Proof.
  destruct (Qlt_le_dec 0 occupancy) as [Hpos|Hneg].
  - destruct (getEnergyStatus_bands energyKw occupancy capacity Hpos) as [Hh _].
    rewrite Hh, (ratio_gt energyKw occupancy 0.08 Hpos). tauto.
  - unfold RoomAnalysisDetail.getEnergyStatus.
    assert (E : JS.gtb occupancy 0 = false) by now apply gtb_false.
    rewrite E. split; [discriminate|].
    intros [H _]. exfalso. apply (Qlt_not_le _ _ H Hneg).
Qed.

(** X10: the detail view raises an energy alert (status [high]) exactly
    for a room with occupants whose energy exceeds 0.08 kW per occupant;
    a room with no occupants never gets one, whatever it consumes. *)
Theorem energy_alert_iff (energyKw occupancy capacity : Q) :
  (RoomAnalysisDetail.getEnergyStatus energyKw occupancy capacity = "high"%string
   <-> 0 < occupancy /\ 0.08 * occupancy < energyKw)
  /\ (occupancy <= 0 ->
      RoomAnalysisDetail.getEnergyStatus energyKw occupancy capacity = "low"%string).
Proof.
  split; [apply getEnergyStatus_high|].
  intros H. unfold RoomAnalysisDetail.getEnergyStatus.
  assert (E : JS.gtb occupancy 0 = false) by now apply gtb_false.
  now rewrite E.
Qed.

Lemma energy_alert_iff_witness :
  RoomAnalysisDetail.getEnergyStatus 500 0 30 = "low"%string.
Proof. apply (energy_alert_iff 500 0 30). discriminate. Defined.

(** ** Priorities of the room analysis page *)

(** X11: a room that the detail view marks with an energy alert is a
    high-priority room of the room analysis page. *)
Theorem energy_alert_is_high_priority (room : RoomAnalysisPage.RoomData) (capacity : Q) :
  RoomAnalysisDetail.getEnergyStatus
    (RoomAnalysisPage.estimated_energy_kw room)
    (RoomAnalysisPage.current_occupancy room) capacity = "high"%string ->
  RoomAnalysisPage.getRoomPriority room = "high"%string.
Proof.
  intros H. apply getEnergyStatus_high in H as [Hpos He].
  unfold RoomAnalysisPage.getRoomPriority, RoomAnalysisPage.issues.
  assert (Ho : Qeq_bool (RoomAnalysisPage.current_occupancy room) 0 = false).
  { apply not_true_iff_false. intros E. apply Qeq_bool_iff in E.
    rewrite E in Hpos. discriminate. }
  assert (Hen : Qeq_bool (RoomAnalysisPage.estimated_energy_kw room) 0 = false).
  { apply not_true_iff_false. intros E. apply Qeq_bool_iff in E.
    rewrite E in He. apply (Qlt_not_le _ _ He).
    apply Qmult_le_0_compat; [discriminate | now apply Qlt_le_weak]. }
  assert (Hr : JS.gtb (RoomAnalysisPage.estimated_energy_kw room
                       / RoomAnalysisPage.current_occupancy room) 0.08 = true).
  { apply gtb_gt. now apply ratio_gt. }
  rewrite Ho, Hen, Hr. reflexivity.
Qed.

Lemma energy_alert_is_high_priority_witness :
  RoomAnalysisPage.getRoomPriority RoomAnalysisPageSamples.lab = "high"%string.
Proof.
  apply (energy_alert_is_high_priority RoomAnalysisPageSamples.lab 30). reflexivity.
Defined.

(** ** History of camera detections *)

Lemma slice_last_app {A} (n : nat) (xs ys : list A) :
  MobileCameraDetection.slice_last n (MobileCameraDetection.slice_last n xs ++ ys)
  = MobileCameraDetection.slice_last n (xs ++ ys).
Proof.
  unfold MobileCameraDetection.slice_last.
  rewrite !length_app, length_skipn, !skipn_app, !skipn_skipn, length_skipn.
  f_equal; f_equal; lia.
Qed.

Lemma slice_last_length {A} (n : nat) (xs : list A) :
  List.length (MobileCameraDetection.slice_last n xs) = Nat.min n (List.length xs).
Proof.
  unfold MobileCameraDetection.slice_last. rewrite length_skipn. lia.
Qed.

(** X12: after any sequence of detections, starting from an empty
    history, the history holds the last ten detections in order: all of
    them while there are at most ten, never more than ten. *)
Theorem detection_history_keeps_last_ten
    (detections : list MobileCameraDetection.Detection) :
  let history := fold_left MobileCameraDetection.addToHistory detections [] in
  history = MobileCameraDetection.slice_last 10 detections
  /\ List.length history = Nat.min 10 (List.length detections)
  /\ ((List.length detections <= 10)%nat -> history = detections).
Proof.
  cbv zeta.
  assert (H : forall h, fold_left MobileCameraDetection.addToHistory detections
                          (MobileCameraDetection.slice_last 10 h)
                        = MobileCameraDetection.slice_last 10 (h ++ detections)).
  { induction detections as [|d ds IH]; intros h; cbn [fold_left].
    - now rewrite app_nil_r.
    - unfold MobileCameraDetection.addToHistory at 2.
      rewrite slice_last_app, IH, <- app_assoc. reflexivity. }
  specialize (H []). cbn in H. rewrite H.
  split; [reflexivity|]. split; [apply slice_last_length|].
  intros L. unfold MobileCameraDetection.slice_last.
  replace (List.length detections - 10)%nat with 0%nat by lia. reflexivity.
Qed.

Lemma detection_history_keeps_last_ten_witness :
  fold_left MobileCameraDetection.addToHistory
    [{| MobileCameraDetection.timestamp := "10:00:00";
        MobileCameraDetection.count := 3;
        MobileCameraDetection.level := "low" |};
     {| MobileCameraDetection.timestamp := "10:00:02";
        MobileCameraDetection.count := 4;
        MobileCameraDetection.level := "low" |}] []
  = [{| MobileCameraDetection.timestamp := "10:00:00";
        MobileCameraDetection.count := 3;
        MobileCameraDetection.level := "low" |};
     {| MobileCameraDetection.timestamp := "10:00:02";
        MobileCameraDetection.count := 4;
        MobileCameraDetection.level := "low" |}].
Proof.
  apply (detection_history_keeps_last_ten _). cbn. lia.
Defined.

(** ** Distribution of rooms over buildings *)

Lemma roomsOf_length b r n : List.length (RoomConfigPanel.roomsOf b r n) = n.
Proof.
  revert r. induction n as [|n IH]; intros r; cbn; [reflexivity | now rewrite IH].
Qed.

(** The rounded-up share lies between the exact share and the rooms left. *)
Lemma ceilDiv_bounds (rooms buildings : Z) :
  (0 <= rooms)%Z -> (0 < buildings)%Z ->
  (rooms <= buildings * RoomConfigPanel.ceilDiv rooms buildings < rooms + buildings
   /\ 0 <= RoomConfigPanel.ceilDiv rooms buildings <= rooms)%Z.
Proof.
  intros Hr Hb. unfold RoomConfigPanel.ceilDiv.
  pose proof (Z.div_mod (- rooms) buildings ltac:(lia)) as E.
  pose proof (Z.mod_pos_bound (- rooms) buildings Hb) as M.
  nia.
Qed.

(** The outer loop with [k >= 1] buildings to go hands out all the rooms
    that are left, each building getting the share rounded down or up. *)
Lemma allocate_spec (k : nat) (b numBuildings numRooms roomsAllocated : Z) :
  (1 <= k)%nat ->
  Z.of_nat k = (numBuildings - (b - 1))%Z ->
  (0 <= numRooms - roomsAllocated)%Z ->
  let batches := RoomConfigPanel.allocate k b numBuildings numRooms roomsAllocated in
  List.length batches = k
  /\ Z.of_nat (List.length (List.concat batches)) = (numRooms - roomsAllocated)%Z
  /\ Forall (fun batch =>
               ((numRooms - roomsAllocated) / Z.of_nat k
                <= Z.of_nat (List.length batch)
                <= RoomConfigPanel.ceilDiv (numRooms - roomsAllocated) (Z.of_nat k))%Z)
            batches.
Proof.
  revert b roomsAllocated.
  induction k as [|k IH]; intros b roomsAllocated Hk Hb Hr; [lia|].
  cbn [RoomConfigPanel.allocate]. cbv zeta.
  rewrite <- Hb.
  set (R := (numRooms - roomsAllocated)%Z) in *.
  set (K := Z.of_nat (S k)) in *.
  assert (HK : (0 < K)%Z) by (unfold K; lia).
  destruct (ceilDiv_bounds R K Hr HK) as [C1 C2].
  set (count := RoomConfigPanel.ceilDiv R K) in *.
  assert (Fl : (K * (R / K) <= R < K * (R / K) + K)%Z).
  { pose proof (Z.div_mod R K ltac:(lia)). pose proof (Z.mod_pos_bound R K HK). lia. }
  cbn [List.length List.concat]. rewrite length_app, roomsOf_length.
  destruct k as [|k'].
  - (* the last building takes what is left *)
    cbn [RoomConfigPanel.allocate List.length List.concat app].
    assert (K = 1%Z) by (unfold K; lia).
    assert (count = R) by nia.
    split; [reflexivity|]. split; [lia|].
    constructor; [|constructor].
    rewrite roomsOf_length. nia.
  - specialize (IH (b + 1)%Z (roomsAllocated + count)%Z ltac:(lia) ltac:(lia) ltac:(lia)).
    cbv zeta in IH. destruct IH as (IH1 & IH2 & IH3).
    replace (numRooms - (roomsAllocated + count))%Z with (R - count)%Z in * by (unfold R; lia).
    split; [now rewrite IH1|]. split; [lia|].
    constructor.
    + rewrite roomsOf_length.
      assert ((R / K <= count)%Z) by nia. lia.
    + revert IH3. apply Forall_impl. intros batch [B1 B2].
      set (K' := Z.of_nat (S k')) in *.
      assert (HK' : (K = K' + 1)%Z) by (unfold K, K'; lia).
      assert (HK'pos : (0 < K')%Z) by (unfold K'; lia).
      assert (HR' : (0 <= R - count)%Z) by lia.
      destruct (ceilDiv_bounds (R - count) K' HR' HK'pos) as [D1 _].
      assert (Fl' : (K' * ((R - count) / K') <= R - count
                     < K' * ((R - count) / K') + K')%Z).
      { pose proof (Z.div_mod (R - count) K' ltac:(lia)).
        pose proof (Z.mod_pos_bound (R - count) K' HK'pos). lia. }
      set (c' := RoomConfigPanel.ceilDiv (R - count) K') in *.
      set (f' := ((R - count) / K')%Z) in *.
      set (f := (R / K)%Z) in *.
      split.
      * apply Z.le_trans with f'; [|exact B1]. nia.
      * apply Z.le_trans with c'; [exact B2|]. nia.
Qed.

(** X13: with at least one building and a non-negative number of rooms,
    the panel creates exactly [numRooms] rooms; with no building it
    creates none. *)
Theorem distribution_creates_all_rooms (numRooms numBuildings : Z) :
  ((1 <= numBuildings)%Z -> (0 <= numRooms)%Z ->
   Z.of_nat (List.length (RoomConfigPanel.validRoomIds numRooms numBuildings))
   = numRooms)
  /\ ((numBuildings <= 0)%Z ->
      RoomConfigPanel.validRoomIds numRooms numBuildings = []).
Proof.
  unfold RoomConfigPanel.validRoomIds. split.
  - intros Hb Hr.
    destruct (allocate_spec (Z.to_nat numBuildings) 1 numBuildings numRooms 0)
      as (_ & H & _); lia.
  - intros Hb. replace (Z.to_nat numBuildings) with 0%nat by lia. reflexivity.
Qed.

Lemma distribution_creates_all_rooms_witness :
  Z.of_nat (List.length (RoomConfigPanel.validRoomIds 10 3)) = 10%Z
  /\ RoomConfigPanel.validRoomIds 10 0 = [].
Proof.
  split.
  - apply (distribution_creates_all_rooms 10 3); lia.
  - apply (distribution_creates_all_rooms 10 0). lia.
Defined.

(** X14: the distribution is balanced: every building gets the share
    [numRooms / numBuildings] rounded down or rounded up, so two buildings
    differ by at most one room. *)
Theorem distribution_is_balanced (numRooms numBuildings : Z) :
  (1 <= numBuildings)%Z -> (0 <= numRooms)%Z ->
  let batches :=
    RoomConfigPanel.allocate (Z.to_nat numBuildings) 1 numBuildings numRooms 0 in
  Z.of_nat (List.length batches) = numBuildings
  /\ Forall (fun batch =>
               (numRooms / numBuildings <= Z.of_nat (List.length batch)
                <= numRooms / numBuildings + 1)%Z)
            batches.
Proof.
  intros Hb Hr. cbv zeta.
  destruct (allocate_spec (Z.to_nat numBuildings) 1 numBuildings numRooms 0)
    as (H1 & _ & H3); try lia.
  split; [lia|].
  revert H3. apply Forall_impl. intros batch.
  rewrite Z2Nat.id, Z.sub_0_r by lia. intros [B1 B2].
  split; [exact B1|].
  apply Z.le_trans with (RoomConfigPanel.ceilDiv numRooms numBuildings); [exact B2|].
  destruct (ceilDiv_bounds numRooms numBuildings Hr ltac:(lia)) as [C1 _].
  pose proof (Z.div_mod numRooms numBuildings ltac:(lia)).
  pose proof (Z.mod_pos_bound numRooms numBuildings ltac:(lia)).
  nia.
Qed.

Lemma distribution_is_balanced_witness :
  map (@List.length _) (RoomConfigPanel.allocate 3 1 3 10 0) = [4; 3; 3]%nat
  /\ Forall (fun batch =>
               (10 / 3 <= Z.of_nat (List.length batch) <= 10 / 3 + 1)%Z)
            (RoomConfigPanel.allocate (Z.to_nat 3) 1 3 10 0).
Proof.
  split; [reflexivity|].
  apply (distribution_is_balanced 10 3); lia.
Defined.

(** ** Recommendation card *)

Module RecommendationCardFacts.
Import RecommendationCard.

Lemma takeDigits_spec (s : string) :
  s = (fst (takeDigits s) ++ snd (takeDigits s))%string
  /\ all_digits (fst (takeDigits s))
  /\ match snd (takeDigits s) with
     | EmptyString => True
     | String a _ => is_digit a = false
     end.
Proof.
  induction s as [|a s (IH1 & IH2 & IH3)]; cbn [takeDigits].
  - repeat split. constructor.
  - destruct (is_digit a) eqn:Ha.
    + destruct (takeDigits s) as [d rest]. cbn [fst snd] in *.
      split; [now rewrite IH1 at 1|]. split; [now constructor | exact IH3].
    + cbn [fst snd]. repeat split; [constructor | exact Ha].
Qed.

(** The digits taken from a run of digits followed by another character. *)
Lemma takeDigits_app (d : string) (a : ascii) (rest : string) :
  all_digits d -> is_digit a = false ->
  takeDigits (d ++ String a rest) = (d, String a rest).
Proof.
  unfold all_digits. induction d as [|b d IH]; cbn; intros Hd Ha.
  - now rewrite Ha.
  - inversion Hd as [|? ? Hb Hd']; subst. now rewrite Hb, IH.
Qed.

Lemma digitsPercentAt_Some (s d : string) :
  digitsPercentAt s = Some d ->
  d <> EmptyString /\ all_digits d /\ exists rest, s = (d ++ "%" ++ rest)%string.
Proof.
  unfold digitsPercentAt.
  destruct (takeDigits_spec s) as (E & Hd & _).
  destruct (takeDigits s) as [[|a d'] rest]; cbn [fst snd] in *; [discriminate|].
  destruct rest as [|c rest]; [discriminate|].
  destruct (Ascii.ascii_dec c "%") as [->|N].
  - intros [= <-]. split; [discriminate|]. split; [exact Hd|]. now exists rest.
  - intros H. exfalso.
    destruct c as [[] [] [] [] [] [] [] []]; try discriminate H. now apply N.
Qed.

Lemma all_digits_last (d : string) :
  d <> EmptyString -> all_digits d ->
  exists d' a, d = (d' ++ String a EmptyString)%string /\ is_digit a = true.
Proof.
  unfold all_digits. induction d as [|b d IH]; [congruence|].
  intros _ H. cbn in H. inversion H as [|? ? Hb Hd]; subst.
  destruct d as [|c d].
  - now exists EmptyString, b.
  - destruct (IH ltac:(discriminate) Hd) as (d' & a & E & Ha).
    exists (String b d'), a. cbn. now rewrite E.
Qed.

Lemma occursIn_cons (p : string) (a : ascii) (s : string) :
  occursIn p s -> occursIn p (String a s).
Proof.
  intros (before & after & E). exists (String a before), after. cbn. now rewrite E.
Qed.

(** A match gives a non-empty run of digits that stands before a percent
    sign in the text. *)
Lemma savingsMatch_Some (s d : string) :
  savingsMatch s = Some d ->
  d <> EmptyString /\ all_digits d /\ occursIn (d ++ "%") s.
Proof.
  induction s as [|a s IH]; cbn [savingsMatch].
  - cbn. discriminate.
  - destruct (digitsPercentAt (String a s)) as [d0|] eqn:E.
    + intros [= ->]. apply digitsPercentAt_Some in E as (H1 & H2 & rest & E).
      repeat split; trivial. exists EmptyString, rest. cbn.
      now rewrite E, string_app_assoc.
    + intros H. destruct (IH H) as (H1 & H2 & H3).
      repeat split; trivial. now apply occursIn_cons.
Qed.

(** There is no match exactly when no digit stands directly before a
    percent sign. *)
Lemma savingsMatch_None (s : string) :
  savingsMatch s = None
  <-> forall a, is_digit a = true -> ~ occursIn (String a "%") s.
Proof.
  split.
  - intros H a Ha (before & after & E). subst s.
    induction before as [|b before IH].
    + cbn in H. unfold digitsPercentAt in H. cbn [takeDigits] in H.
      rewrite Ha in H. cbn in H. discriminate.
    + apply IH. cbn [append savingsMatch] in H.
      destruct (digitsPercentAt _); [discriminate | exact H].
  - intros H. destruct (savingsMatch s) as [d|] eqn:E; [|reflexivity].
    exfalso. apply savingsMatch_Some in E as (H1 & H2 & before & after & E).
    destruct (all_digits_last d H1 H2) as (d' & a & -> & Ha).
    apply (H a Ha). exists (before ++ d')%string, after.
    rewrite E, !string_app_assoc. reflexivity.
Qed.

(** X15: the card finds a savings figure exactly when some digit stands
    directly before a percent sign in the recommendation; without one the
    impact is [medium] (and no badge is shown); a figure found is a
    non-empty run of digits that stands before a percent sign in the
    text. *)
Theorem savings_figure_iff_digit_before_percent (recommendation : string) :
  (savingsMatch recommendation = None
   <-> forall a, is_digit a = true -> ~ occursIn (String a "%") recommendation)
  /\ ((forall a, is_digit a = true -> ~ occursIn (String a "%") recommendation) ->
      getImpactLevel (savingsMatch recommendation) = "medium"%string)
  /\ (forall savings, savingsMatch recommendation = Some savings ->
        savings <> EmptyString /\ all_digits savings
        /\ occursIn (savings ++ "%") recommendation).
Proof.
  split; [apply savingsMatch_None|]. split.
  - intros H. apply savingsMatch_None in H. now rewrite H.
  - intros savings. apply savingsMatch_Some.
Qed.

Lemma savings_figure_iff_digit_before_percent_witness :
  getImpactLevel (savingsMatch "Enable smart HVAC scheduling") = "medium"%string.
Proof.
  apply (savings_figure_iff_digit_before_percent "Enable smart HVAC scheduling").
  apply savingsMatch_None. reflexivity.
Defined.

Lemma trimStart_suffix (s : string) :
  exists ws, s = (ws ++ trimStart s)%string.
Proof.
  induction s as [|a s [ws IH]]; cbn.
  - now exists EmptyString.
  - destruct (is_space a).
    + exists (String a ws). cbn. now rewrite <- IH.
    + now exists EmptyString.
Qed.

Lemma afterPrefix_i_suffix (p s rest : string) :
  afterPrefix_i p s = Some rest -> exists t, s = (t ++ rest)%string.
Proof.
  revert s. induction p as [|a p IH]; intros s; cbn.
  - intros [= ->]. now exists EmptyString.
  - destruct s as [|b s]; [discriminate|].
    destruct (Ascii.eqb (upper_ascii a) (upper_ascii b)); [|discriminate].
    intros H. destruct (IH s H) as [t E]. exists (String b t). cbn. now rewrite E.
Qed.

Lemma stripNumber_suffix (s : string) : exists t, s = (t ++ stripNumber s)%string.
Proof.
  unfold stripNumber. destruct (takeDigits_spec s) as (E & _).
  destruct (takeDigits s) as [[|a d] rest]; cbn [fst snd] in E;
    [now exists EmptyString|].
  destruct rest as [|c rest]; [now exists EmptyString|].
  destruct (Ascii.ascii_dec c ".") as [->|N].
  - destruct (trimStart_suffix rest) as [ws Ews].
    exists (String a d ++ "." ++ ws)%string.
    rewrite E at 1. rewrite Ews at 1. now rewrite !string_app_assoc.
  - exists EmptyString.
    destruct c as [[] [] [] [] [] [] [] []]; try reflexivity. now elim N.
Qed.

Lemma stripDash_suffix (s : string) : exists t, s = (t ++ stripDash s)%string.
Proof.
  unfold stripDash.
  destruct s as [|a s]; [now exists EmptyString|].
  destruct (Ascii.ascii_dec a "-") as [->|Na].
  - destruct s as [|b s]; [now exists EmptyString|].
    destruct (Ascii.ascii_dec b " ") as [->|Nb]; [now exists "- "%string|].
    exists EmptyString.
    destruct b as [[] [] [] [] [] [] [] []]; try reflexivity. now elim Nb.
  - exists EmptyString.
    destruct a as [[] [] [] [] [] [] [] []]; try reflexivity. now elim Na.
Qed.

Lemma stripAction_suffix (s : string) : exists t, s = (t ++ stripAction s)%string.
Proof.
  unfold stripAction. destruct (afterPrefix_i "ACTION:" s) as [rest|] eqn:E.
  - apply afterPrefix_i_suffix in E as [t E].
    destruct (trimStart_suffix rest) as [ws Ews].
    exists (t ++ ws)%string. rewrite E. rewrite Ews at 1.
    now rewrite string_app_assoc.
  - now exists EmptyString.
Qed.

(** X16: the text shown on a card is the recommendation with some
    characters removed at its start and nothing else changed. *)
Theorem cleanText_is_suffix (recommendation : string) :
  exists removed, recommendation = (removed ++ cleanText recommendation)%string.
Proof.
  unfold cleanText.
  destruct (stripNumber_suffix recommendation) as [t1 E1].
  destruct (stripDash_suffix (stripNumber recommendation)) as [t2 E2].
  destruct (stripAction_suffix (stripDash (stripNumber recommendation))) as [t3 E3].
  exists (t1 ++ t2 ++ t3)%string.
  rewrite E1 at 1. rewrite E2 at 1. rewrite E3 at 1.
  now rewrite !string_app_assoc.
Qed.

Lemma trimStart_app (ws s : string) :
  trimStart ws = EmptyString -> trimStart (ws ++ s) = trimStart s.
Proof.
  induction ws as [|a ws IH]; cbn; [reflexivity|].
  destruct (is_space a); [exact IH | discriminate].
Qed.

Lemma afterPrefix_i_app (p tag rest : string) :
  toUpperCase tag = toUpperCase p -> afterPrefix_i p (tag ++ rest) = Some rest.
Proof.
  revert tag. induction p as [|a p IH]; intros [|b tag]; cbn; try discriminate.
  - reflexivity.
  - intros [= Hb Htag]. rewrite Hb, Ascii.eqb_refl. now apply IH.
Qed.

Lemma stripDash_other (a : ascii) (s : string) :
  a <> "-"%char -> stripDash (String a s) = String a s.
Proof.
  intros N. unfold stripDash.
  destruct a as [[] [] [] [] [] [] [] []]; try reflexivity. now elim N.
Qed.

(** X17: a recommendation written as a list item, a number, a dot, white
    space, the tag ACTION: in any letter case, white space and then the
    text, is shown as the text alone. *)
Theorem cleanText_strips_number_and_tag (number ws1 tag ws2 text : string) :
  number <> EmptyString -> all_digits number ->
  trimStart ws1 = EmptyString -> trimStart ws2 = EmptyString ->
  toUpperCase tag = "ACTION:"%string ->
  trimStart text = text ->
  cleanText (number ++ "." ++ ws1 ++ tag ++ ws2 ++ text) = text.
Proof.
  intros Hn Hd H1 H2 Htag Htext. unfold cleanText.
  assert (S1 : stripNumber (number ++ "." ++ ws1 ++ tag ++ ws2 ++ text)
               = (tag ++ ws2 ++ text)%string).
  { unfold stripNumber. cbn [append].
    rewrite (takeDigits_app number "." _ Hd eq_refl).
    destruct number as [|a number]; [congruence|].
    rewrite (trimStart_app ws1 _ H1).
    destruct tag as [|t0 tag]; [discriminate|]. cbn [append trimStart].
    assert (Hs : is_space t0 = false).
    { cbn in Htag. injection Htag as Ht _.
      destruct (is_space t0) eqn:E; [|reflexivity].
      unfold is_space in E. unfold upper_ascii in Ht.
      destruct t0 as [[] [] [] [] [] [] [] []]; cbn in E; try discriminate E;
        cbn in Ht; discriminate Ht. }
    now rewrite Hs. }
  rewrite S1.
  assert (S2 : stripDash (tag ++ ws2 ++ text) = (tag ++ ws2 ++ text)%string).
  { destruct tag as [|t0 tag]; [discriminate|]. cbn [append].
    apply stripDash_other. intros ->. discriminate Htag. }
  rewrite S2. unfold stripAction.
  rewrite (afterPrefix_i_app "ACTION:" tag _ Htag).
  now rewrite (trimStart_app ws2 _ H2).
Qed.

Lemma cleanText_strips_number_and_tag_witness :
  cleanText "12.  Action: Reduce HVAC by 20%" = "Reduce HVAC by 20%"%string.
Proof.
  apply (cleanText_strips_number_and_tag "12" "  " "Action:" " " "Reduce HVAC by 20%").
  - discriminate.
  - repeat constructor.
  - reflexivity.
  - reflexivity.
  - reflexivity.
  - reflexivity.
Defined.

End RecommendationCardFacts.

(** ** Sorting on the room analysis page *)

Lemma sort_insert_Permutation {A} (compare : A -> A -> Q) (x : A) (xs : list A) :
  Permutation (sort_insert compare x xs) (x :: xs).
Proof.
  induction xs as [|y ys IH]; cbn; [reflexivity|].
  destruct (JS.gtb (compare x y) 0); [|reflexivity].
  rewrite IH. apply perm_swap.
Qed.

(** Sorting keeps the elements. *)
Lemma Array_sort_Permutation {A} (compare : A -> A -> Q) (xs : list A) :
  Permutation (Array_sort compare xs) xs.
Proof.
  induction xs as [|x xs IH]; cbn; [reflexivity|].
  fold (Array_sort compare xs). rewrite sort_insert_Permutation. now constructor.
Qed.

Section SortByKey.

Context {A : Type} (compare : A -> A -> Q) (key : A -> Q).
Hypothesis compare_key : forall a b, compare a b == key a - key b.

Lemma compare_gt (a b : A) : JS.gtb (compare a b) 0 = true <-> key b < key a.
Proof.
  rewrite gtb_gt, compare_key. split; intros H.
  - apply (Qplus_lt_l _ _ (- key b)). now rewrite Qplus_opp_r.
  - apply (Qplus_lt_l _ _ (- key b)) in H. now rewrite Qplus_opp_r in H.
Qed.

Lemma sort_insert_sorted (x : A) (xs : list A) :
  StronglySorted (fun a b => key a <= key b) xs ->
  StronglySorted (fun a b => key a <= key b) (sort_insert compare x xs).
Proof.
  induction 1 as [|y ys Hs IH Hy]; cbn.
  - constructor; constructor.
  - destruct (JS.gtb (compare x y) 0) eqn:E.
    + apply compare_gt in E. constructor; [exact IH|].
      rewrite Forall_forall in *. intros z Hz.
      apply (Permutation_in _ (sort_insert_Permutation compare x ys)) in Hz.
      destruct Hz as [<-|Hz]; [now apply Qlt_le_weak | now apply Hy].
    + assert (L : key x <= key y).
      { apply Qnot_lt_le. intros H. apply compare_gt in H. congruence. }
      constructor; [now constructor|].
      constructor; [exact L|].
      rewrite Forall_forall in *. intros z Hz.
      apply Qle_trans with (key y); [exact L | now apply Hy].
Qed.

(** A comparator that is the difference of a key sorts by the key. *)
Lemma Array_sort_sorted (xs : list A) :
  StronglySorted (fun a b => key a <= key b) (Array_sort compare xs).
Proof.
  induction xs as [|x xs IH]; cbn; [constructor|].
  now apply sort_insert_sorted.
Qed.

Lemma sort_insert_low (x : A) (xs : list A) :
  Forall (fun a => key x <= key a) xs -> sort_insert compare x xs = x :: xs.
Proof.
  intros H. destruct xs as [|y ys]; [reflexivity|]. cbn.
  inversion H as [|? ? Hy _]; subst.
  assert (G : JS.gtb (compare x y) 0 = false).
  { apply not_true_iff_false. intros E. apply compare_gt in E.
    apply (Qlt_not_le _ _ E Hy). }
  now rewrite G.
Qed.

Lemma sort_insert_high (x : A) (lower upper : list A) :
  Forall (fun a => key a < key x) lower ->
  Forall (fun a => key x <= key a) upper ->
  sort_insert compare x (lower ++ upper) = lower ++ x :: upper.
Proof.
  intros Hl Hu. induction Hl as [|y ys Hy _ IH]; cbn [app].
  - now apply sort_insert_low.
  - cbn [sort_insert]. apply compare_gt in Hy. now rewrite Hy, IH.
Qed.

(** With a key of two values the sort lists the elements of the lower
    value, then those of the higher, each group in its order. *)
Lemma Array_sort_two_values (lo hi : Q) (xs : list A) :
  lo < hi ->
  (forall a, key a == lo \/ key a == hi) ->
  Array_sort compare xs
  = filter (fun a => Qeq_bool (key a) lo) xs
    ++ filter (fun a => negb (Qeq_bool (key a) lo)) xs.
Proof.
  intros Hlt Hkey.
  assert (Hhi : forall a, Qeq_bool (key a) lo = false -> key a == hi).
  { intros a E. destruct (Hkey a) as [H|H]; [|exact H].
    apply Qeq_bool_iff in H. congruence. }
  induction xs as [|x xs IH]; [reflexivity|].
  cbn [Array_sort fold_right]. fold (Array_sort compare xs). rewrite IH.
  cbn [filter]. destruct (Qeq_bool (key x) lo) eqn:Ex; cbn [negb app].
  - apply Qeq_bool_iff in Ex. apply sort_insert_low.
    rewrite Forall_forall. intros a _. rewrite Ex.
    destruct (Hkey a) as [->| ->]; [apply Qle_refl | now apply Qlt_le_weak].
  - pose proof (Hhi x Ex) as Hx. apply sort_insert_high.
    + rewrite Forall_forall. intros a Ha. apply filter_In in Ha as [_ Ha].
      apply Qeq_bool_iff in Ha. now rewrite Ha, Hx.
    + rewrite Forall_forall. intros a Ha. apply filter_In in Ha as [_ Ha].
      apply negb_true_iff in Ha. rewrite Hx, (Hhi a Ha). apply Qle_refl.
Qed.

End SortByKey.

Module RoomAnalysisPageFacts.
Import RoomAnalysisPage.

Lemma filter_incl' {A} (f : A -> bool) (xs : list A) (x : A) :
  In x (filter f xs) -> In x xs.
Proof. intros H. now apply filter_In in H. Qed.

Lemma searchFilter_In (searchQuery : string) rooms room :
  In room (searchFilter searchQuery rooms) -> In room rooms.
Proof.
  unfold searchFilter. destruct (trim searchQuery); [tauto | apply filter_incl'].
Qed.

Lemma typeFilter_In (filterType : string) rooms room :
  In room (typeFilter filterType rooms) -> In room rooms.
Proof.
  unfold typeFilter.
  destruct (String.eqb filterType "all"); [tauto|].
  destruct (String.eqb filterType "high-priority"); [apply filter_incl'|].
  destruct (String.eqb filterType "low-priority"); apply filter_incl'.
Qed.

(** X18: the list shown by the room analysis page is a rearrangement of
    the rooms that pass the search and the type filter: no room is
    invented, repeated or lost by the sort; and with a blank search and
    the type [all] it is a rearrangement of all the rooms. *)
Theorem page_list_is_rearrangement (rooms : list RoomData)
    (searchQuery filterType sortBy : string) :
  Permutation (filterAndSortRooms rooms searchQuery filterType sortBy)
              (typeFilter filterType (searchFilter searchQuery rooms))
  /\ (forall room, In room (filterAndSortRooms rooms searchQuery filterType sortBy) ->
                   In room rooms)
  /\ (trim searchQuery = EmptyString ->
      Permutation (filterAndSortRooms rooms searchQuery "all" sortBy) rooms).
Proof.
  unfold filterAndSortRooms. split; [apply Array_sort_Permutation|]. split.
  - intros room H.
    apply (Permutation_in _ (Array_sort_Permutation _ _)) in H.
    apply typeFilter_In, searchFilter_In in H. exact H.
  - intros E. rewrite Array_sort_Permutation.
    unfold typeFilter, searchFilter. cbn [String.eqb]. now rewrite E.
Qed.

Lemma page_list_is_rearrangement_witness :
  Permutation
    (filterAndSortRooms [RoomAnalysisPageSamples.lab; RoomAnalysisPageSamples.hall]
       "  " "all" "priority")
    [RoomAnalysisPageSamples.lab; RoomAnalysisPageSamples.hall].
Proof.
  apply (page_list_is_rearrangement
           [RoomAnalysisPageSamples.lab; RoomAnalysisPageSamples.hall]
           "  " "all" "priority").
  reflexivity.
Defined.

(** Sorted by priority, the medium-priority hall comes before the
    high-priority lab. *)
Example priority_sort_puts_medium_first :
  filterAndSortRooms [RoomAnalysisPageSamples.lab; RoomAnalysisPageSamples.hall]
    "" "all" "priority"
  = [RoomAnalysisPageSamples.hall; RoomAnalysisPageSamples.lab].
Proof. vm_compute. reflexivity. Qed.

Lemma StronglySorted_impl {A} (R S : A -> A -> Prop) (xs : list A) :
  (forall a b, R a b -> S a b) -> StronglySorted R xs -> StronglySorted S xs.
Proof.
  intros H. induction 1 as [|x xs _ IH Hx]; constructor; [exact IH|].
  revert Hx. apply Forall_impl. intros a. apply H.
Qed.

Lemma opp_le (x y : Q) : - x <= - y -> y <= x.
Proof. intros H. apply Qopp_le_compat in H. now rewrite !Qopp_involutive in H. Qed.

(** X19: sorted by occupancy the list runs from the fullest room to the
    emptiest, and sorted by energy from the largest estimate to the
    smallest. *)
Theorem page_list_sorted_descending (rooms : list RoomData)
    (searchQuery filterType : string) :
  StronglySorted (fun a b => current_occupancy b <= current_occupancy a)
    (filterAndSortRooms rooms searchQuery filterType "occupancy")
  /\ StronglySorted (fun a b => estimated_energy_kw b <= estimated_energy_kw a)
       (filterAndSortRooms rooms searchQuery filterType "energy").
Proof.
  unfold filterAndSortRooms. split.
  - apply (StronglySorted_impl (fun a b => - current_occupancy a <= - current_occupancy b)).
    + intros a b. apply opp_le.
    + apply Array_sort_sorted. intros a b.
      unfold compareRooms. cbn [String.eqb Ascii.eqb Bool.eqb andb]. ring.
  - apply (StronglySorted_impl (fun a b => - estimated_energy_kw a <= - estimated_energy_kw b)).
    + intros a b. apply opp_le.
    + apply Array_sort_sorted. intros a b.
      unfold compareRooms. cbn [String.eqb Ascii.eqb Bool.eqb andb]. ring.
Qed.

(** A room has the priority [high] or [medium], never [low]. *)
Lemma getRoomPriority_cases (room : RoomData) :
  getRoomPriority room = "high"%string \/ getRoomPriority room = "medium"%string.
Proof.
  unfold getRoomPriority. destruct (0 <? List.length (issues room))%nat; tauto.
Qed.

(** X20: a room's priority is [high] or [medium], never [low]; and sorted
    by priority the list shows the medium-priority rooms first and the
    high-priority rooms after them, each group in its previous order,
    because the rank of [high], 0, is replaced by the default 2. *)
Theorem page_list_by_priority (rooms : list RoomData)
    (searchQuery filterType : string) :
  let shown := typeFilter filterType (searchFilter searchQuery rooms) in
  (forall room, getRoomPriority room = "high"%string
                \/ getRoomPriority room = "medium"%string)
  /\ priorityRank "high" = 2 /\ priorityRank "medium" = 1
  /\ filterAndSortRooms rooms searchQuery filterType "priority"
     = filter (fun room => String.eqb (getRoomPriority room) "medium") shown
       ++ filter (fun room => String.eqb (getRoomPriority room) "high") shown.
Proof.
  cbv zeta. split; [apply getRoomPriority_cases|].
  split; [reflexivity|]. split; [reflexivity|].
  unfold filterAndSortRooms.
  rewrite (Array_sort_two_values (compareRooms "priority")
             (fun room => priorityRank (getRoomPriority room)) (fun a b => Qeq_refl _)
             1 2).
  - f_equal; apply filter_ext; intros room;
      destruct (getRoomPriority_cases room) as [-> | ->]; reflexivity.
  - reflexivity.
  - intros room. destruct (getRoomPriority_cases room) as [-> | ->];
      [right | left]; reflexivity.
Qed.

End RoomAnalysisPageFacts.

(** ** Recommendation panel *)

(** X21: the recommendation panel is either not rendered or shows between
    one and five recommendations, each taken from its input and passing
    its filter; it is not rendered exactly when no recommendation of the
    input passes the filter (or there is no input). *)
Theorem panel_shows_one_to_five (recommendations : option (list string)) :
  (forall shown, RecommendationPanel recommendations = Some shown ->
     shown <> []
     /\ (List.length shown <= 5)%nat
     /\ exists recs, recommendations = Some recs
          /\ forall rec, In rec shown -> In rec recs /\ keepPanel rec = true)
  /\ (RecommendationPanel recommendations = None
      <-> forall recs, recommendations = Some recs ->
            forall rec, In rec recs -> keepPanel rec = false).
Proof.
  destruct recommendations as [recs|].
  - assert (P : RecommendationPanel (Some recs)
                = match firstn 5 (filter keepPanel recs) with
                  | [] => None
                  | r :: l => Some (r :: l)
                  end).
    { destruct recs; reflexivity. }
    rewrite P. split.
    + intros shown H.
      destruct (firstn 5 (filter keepPanel recs)) as [|r l] eqn:E; [discriminate|].
      injection H as <-. split; [discriminate|].
      split; [rewrite <- E; apply firstn_le_length|].
      exists recs. split; [reflexivity|]. intros rec Hin.
      rewrite <- E in Hin. apply In_firstn, filter_In in Hin. exact Hin.
    + split.
      * intros H recs' [= <-] rec Hin.
        destruct (keepPanel rec) eqn:K; [|reflexivity]. exfalso.
        assert (Hf : In rec (filter keepPanel recs)) by now apply filter_In.
        destruct (filter keepPanel recs) as [|r l]; [contradiction|].
        cbn in H. discriminate.
      * intros H. specialize (H recs eq_refl).
        assert (E : filter keepPanel recs = []).
        { destruct (filter keepPanel recs) as [|r l] eqn:E; [reflexivity|]. exfalso.
          assert (Hin : In r (filter keepPanel recs)) by (rewrite E; now left).
          apply filter_In in Hin as [Hin K]. rewrite (H r Hin) in K. discriminate. }
        now rewrite E.
  - split; [discriminate|]. split; [discriminate | reflexivity].
Qed.

Lemma panel_shows_one_to_five_witness :
  (List.length ["Reduce HVAC in empty lecture halls"%string] <= 5)%nat.
Proof.
  apply (proj1 (panel_shows_one_to_five
                  (Some ["Reduce HVAC in empty lecture halls"; "Too short"]%string))
           ["Reduce HVAC in empty lecture halls"%string]).
  reflexivity.
Defined.

(** * Rounded figures

    [toFixed] rounds the exact value here and the floating-point value in
    the code, which can lie on the other side of a decimal tie; the
    figures below are therefore related to the exact values to within half
    a unit of their last decimal and a margin of a fiftieth of that for
    the floating-point arithmetic (0.051 for one decimal, 0.0051 for two),
    or exactly where no rounding can occur. *)

Lemma toFixed_decimal (d : nat) (x : Q) :
  exists n : Z, JS.toFixed d x = Qmake n (Z.to_pos (10 ^ Z.of_nat d)).
Proof.
  unfold JS.toFixed. destruct (JS.ltb x 0); eexists; reflexivity.
Qed.

Lemma Qmake_inject (n : Z) (s : positive) :
  Qmake n s == inject_Z n / inject_Z (Z.pos s).
Proof. unfold Qeq, Qdiv, Qmult, Qinv, inject_Z. cbn. lia. Qed.

(** The rounding error of [toFixed] is at most half a unit of the last
    decimal, here for one and for two decimals. *)
Lemma toFixed_error (s : positive) (x : Q) (n : Z) (r : Q) :
  n = Qfloor (Qabs x * inject_Z (Z.pos s) + (1 # 2)) ->
  r = (if JS.ltb x 0 then Qmake (- n) s else Qmake n s) ->
  Qabs (r - x) * inject_Z (Z.pos s) <= 1 # 2.
Proof.
  intros Hn Hr.
  pose proof (Qfloor_le (Qabs x * inject_Z (Z.pos s) + (1 # 2))) as L.
  pose proof (Qlt_floor (Qabs x * inject_Z (Z.pos s) + (1 # 2))) as U.
  rewrite <- Hn in L, U. rewrite inject_Z_plus in U.
  set (S := inject_Z (Z.pos s)) in *.
  assert (HS : 0 < S) by reflexivity.
  assert (E : (r - x) * S == (if JS.ltb x 0 then - inject_Z n else inject_Z n) - x * S).
  { rewrite Hr. destruct (JS.ltb x 0); rewrite Qmake_inject; fold S.
    - rewrite inject_Z_opp. field. intros Z0. rewrite Z0 in HS. discriminate.
    - field. intros Z0. rewrite Z0 in HS. discriminate. }
  assert (A : Qabs (r - x) * S == Qabs ((r - x) * S)).
  { rewrite Qabs_Qmult, (Qabs_pos S); [reflexivity | now apply Qlt_le_weak]. }
  rewrite A, E. apply Qabs_Qle_condition.
  destruct (JS.ltb x 0) eqn:Hneg.
  - apply ltb_lt in Hneg.
    rewrite (Qabs_neg x) in L, U by now apply Qlt_le_weak.
    change (inject_Z 1) with 1 in U. split; lra.
  - assert (Hpos : 0 <= x).
    { apply Qnot_lt_le. intros H. apply (ltb_lt x 0) in H.
      rewrite H in Hneg. discriminate. }
    rewrite (Qabs_pos x Hpos) in L, U.
    change (inject_Z 1) with 1 in U. split; lra.
Qed.

Lemma toFixed1_close (x : Q) : Qabs (JS.toFixed 1 x - x) < 51 # 1000.
Proof.
  pose proof (toFixed_error 10 x _ (JS.toFixed 1 x) eq_refl eq_refl) as H.
  change (inject_Z 10) with 10 in H.
  apply Qle_lt_trans with (1 # 20); [lra | reflexivity].
Qed.

Lemma toFixed2_close (x : Q) : Qabs (JS.toFixed 2 x - x) < 51 # 10000.
Proof.
  pose proof (toFixed_error 100 x _ (JS.toFixed 2 x) eq_refl eq_refl) as H.
  change (inject_Z 100) with 100 in H.
  apply Qle_lt_trans with (1 # 200); [lra | reflexivity].
Qed.

(** A number of hundredths is not changed by rounding to two decimals. *)
Lemma toFixed2_exact (x : Q) (m : Z) : x == m # 100 -> JS.toFixed 2 x == x.
Proof.
  intros E. rewrite (toFixed_Qeq 2 x (m # 100) E), E.
  unfold JS.toFixed. change (Z.to_pos (10 ^ Z.of_nat 2)) with 100%positive.
  assert (F : Qfloor (Qabs (m # 100) * inject_Z 100 + (1 # 2)) = Z.abs m).
  { rewrite <- (Qfloor_half (Z.abs m)). apply Qfloor_comp.
    apply Qplus_comp; [|reflexivity].
    unfold Qabs, Qeq, Qmult, inject_Z. cbn. lia. }
  rewrite F. destruct (JS.ltb (m # 100) 0) eqn:Hneg.
  - apply ltb_lt in Hneg. unfold Qlt in Hneg. cbn in Hneg.
    unfold Qeq. cbn. lia.
  - assert (Hpos : 0 <= m # 100).
    { apply Qnot_lt_le. intros H. apply (ltb_lt (m # 100) 0) in H.
      rewrite H in Hneg. discriminate. }
    unfold Qle in Hpos. cbn in Hpos. unfold Qeq. cbn. lia.
Qed.

(** A sum of numbers of hundredths is a number of hundredths. *)
Lemma sum_of_hundredths {A} (f : A -> Q) (xs : list A) :
  Forall (fun x => exists n : Z, f x == n # 100) xs ->
  exists m : Z, sumQ (map f xs) == m # 100.
Proof.
  induction 1 as [|x xs [n Hx] _ [m IH]].
  - now exists 0%Z.
  - exists (n + m)%Z. cbn [map sumQ fold_right]. fold (sumQ (map f xs)).
    rewrite Hx, IH. unfold Qeq, Qplus. cbn. lia.
Qed.

(** The energy estimate of a generated room is a number of hundredths. *)
Lemma generated_energy_hundredths roomId buildingId envParams w c :
  exists n : Z,
    estimated_energy_kw (fst (generateMockRoomData roomId buildingId envParams w c))
    == n # 100.
Proof.
  destruct (generateMockRoomData_shape roomId buildingId envParams w c)
    as (a & k & j & _ & _ & _ & He).
  rewrite He.
  destruct (toFixed_decimal 2 (baseEnergyOf buildingId
              * energyMultiplierOf
                  (current_occupancy (fst (generateMockRoomData roomId buildingId envParams w c))
                   / capacity (fst (generateMockRoomData roomId buildingId envParams w c))
                   * 100) envParams
              * (0.8 + randoms w j * 0.4))) as [n Hn].
  exists n. now rewrite Hn.
Qed.

(** The energy total of a rollup whose rooms have estimates in hundredths
    is their sum, with no rounding. *)
Lemma rollupBuilding_energy_exact buildingId numRooms rooms w c :
  Forall (fun r => exists n : Z, estimated_energy_kw r == n # 100)
         (Object_values rooms) ->
  total_energy_kw (fst (rollupBuilding buildingId numRooms rooms w c))
  == sumQ (map estimated_energy_kw (Object_values rooms)).
Proof.
  intros H.
  destruct (rollupBuilding_fields buildingId numRooms rooms w c) as (_ & He & _).
  rewrite He. destruct (sum_of_hundredths _ _ H) as [m Hm].
  now apply (toFixed2_exact _ m).
Qed.

(** C2 (as the code has it): the rollup of a building keeps the rooms and
    sums their energy estimates, occupancies and capacities; there is no
    water total.  For rooms of ordinary size the energy total is the sum
    rounded to two decimals: less than 0.0051 away from it, and equal to it
    when the estimates are numbers of hundredths, as those of every
    generated building are.  [occupancy_rate] is
    [sum occupancy / sum capacity * 100] rounded to one decimal: a number
    of tenths less than 0.051 away from it, and 0 when the total capacity
    is not positive.  For capacities 30 and 40 with occupancies 25 and 5
    the rate is 42.9.  The bounds on the sizes are not needed for exact
    arithmetic; they keep the floating-point arithmetic of the code within
    the margins. *)
Theorem rollupBuilding_totals buildingId numRooms rooms envParams w c :
  Forall plausible (Object_values rooms) ->
  fair w ->
  ordinary envParams ->
  let b := fst (rollupBuilding buildingId numRooms rooms w c) in
  let rs := Object_values rooms in
  let generated := fst (generateMockBuildingData buildingId envParams w c) in
  room_states b = rooms
  /\ Qabs (total_energy_kw b - sumQ (map estimated_energy_kw rs)) < 51 # 10000
  /\ (Forall (fun r => exists n : Z, estimated_energy_kw r == n # 100) rs ->
      total_energy_kw b == sumQ (map estimated_energy_kw rs))
  /\ total_energy_kw generated
     == sumQ (map estimated_energy_kw (Object_values (room_states generated)))
  /\ total_occupancy b == sumQ (map current_occupancy rs)
  /\ total_capacity b == sumQ (map capacity rs)
  /\ (0 < sumQ (map capacity rs) ->
      (exists n : Z, occupancy_rate b = n # 10)
      /\ Qabs (occupancy_rate b
               - sumQ (map current_occupancy rs) / sumQ (map capacity rs) * 100)
         < 51 # 1000)
  /\ (sumQ (map capacity rs) <= 0 -> occupancy_rate b == 0)
  /\ occupancy_rate (fst (rollupBuilding "sci" 2 sciRooms w c)) = 42.9.
Proof.
  intros _ _ _. cbv zeta.
  destruct (rollupBuilding_fields buildingId numRooms rooms w c)
    as (Hrooms & He & Ho & Hc & Hrate).
  split; [exact Hrooms|].
  split; [rewrite He; apply toFixed2_close|].
  split; [apply rollupBuilding_energy_exact|].
  split.
  { rewrite generateMockBuildingData_unfold. cbv zeta.
    match goal with
    | |- total_energy_kw (fst (rollupBuilding ?i ?n ?r ?w' ?c')) == _ =>
        destruct (rollupBuilding_fields i n r w' c') as (Hr & _); rewrite Hr;
        apply rollupBuilding_energy_exact
    end.
    apply generateRooms_Forall. intros roomId c'.
    apply generated_energy_hundredths. }
  split; [exact Ho|]. split; [exact Hc|].
  split; [|split; [|reflexivity]].
  - intros Hpos. apply gtb_gt in Hpos. rewrite Hpos in Hrate. rewrite Hrate.
    split; [apply (toFixed_decimal 1) | apply toFixed1_close].
  - intros Hneg. apply gtb_false in Hneg. rewrite Hneg in Hrate.
    rewrite Hrate. reflexivity.
Qed.

Lemma rollupBuilding_totals_witness :
  let b := fst (rollupBuilding "sci" 2 sciRooms evenWorld start) in
  total_energy_kw b == 10.17
  /\ Qabs (occupancy_rate b - 30 / 70 * 100) < 51 # 1000.
Proof.
  assert (Hrs : Forall plausible (Object_values sciRooms)).
  { repeat constructor; cbn; discriminate. }
  assert (Hw : fair evenWorld).
  { intros n. split; cbn; [discriminate | reflexivity]. }
  assert (Henv : ordinary noParams).
  { split; intros q H; discriminate H. }
  destruct (rollupBuilding_totals "sci" 2 sciRooms noParams evenWorld start Hrs Hw Henv)
    as (_ & _ & He & _ & _ & _ & Hr & _).
  cbv zeta. split.
  - rewrite He; [reflexivity|].
    repeat constructor; [now exists 707%Z | now exists 310%Z].
  - apply Hr. reflexivity.
Defined.

(** Two generated buildings whose draws differ only in the rooms' water
    estimates (twelve rooms at 2.5 and at 4.5 litres per hour) have the
    same figures, none of which is a water total. *)
Lemma building_figures_ignore_water :
  let b1 := fst (generateMockBuildingData "sci" (withOccupancy 100) evenWorld start) in
  let b2 := fst (generateMockBuildingData "sci" (withOccupancy 100) wetWorld start) in
  sumQ (map estimated_water_lph (Object_values (room_states b1))) == 30
  /\ sumQ (map estimated_water_lph (Object_values (room_states b2))) == 54
  /\ buildingFigures b1 = buildingFigures b2
  /\ buildingFigures b1 = [12; 96.00; 480; 480; 100.0; 8.00; 25.0].
Proof. vm_compute. repeat split; reflexivity. Qed.

(** The energy total of a generated building is a number of hundredths. *)
Lemma generated_building_energy_hundredths buildingId envParams w c :
  exists n : Z,
    total_energy_kw (fst (generateMockBuildingData buildingId envParams w c))
    == n # 100.
Proof.
  rewrite generateMockBuildingData_unfold. cbv zeta.
  match goal with
  | |- exists n, total_energy_kw (fst (rollupBuilding ?i ?k ?r ?w' ?c')) == _ =>
      destruct (rollupBuilding_fields i k r w' c') as (_ & He & _); rewrite He;
      destruct (toFixed_decimal 2 (sumQ (map estimated_energy_kw (Object_values r))))
        as [n Hn]
  end.
  exists n. now rewrite Hn.
Qed.

(** C4 (as the code has it): with [Math.random()] in [0, 1) and parameters
    of ordinary size, the campus totals of energy, occupancy, capacity and
    rooms are the sums over the five buildings; the campus occupancy rate
    is the mean of the buildings' occupancy rates, rounded to one decimal;
    the water total is a number drawn for the campus,
    [100 + 150 * Math.random()] at the first draw after those of the
    buildings, rounded to one decimal (less than 0.051 away from it); the
    hourly cost is [energy * 0.12 + water * 0.002] rounded to two decimals:
    a number of hundredths less than 0.0051 away from it.  The bounds on
    the parameters are not needed for exact arithmetic; they keep the
    floating-point arithmetic of the code within the margins. *)
Theorem campus_rollup_totals envParams w c :
  fair w ->
  ordinary envParams ->
  let campus := fst (generateMockCampusAnalysis envParams w c) in
  let m := campus_metrics campus in
  let bs := Object_values (building_states campus) in
  let k := nextRandom (snd (generateBuildings buildingIds envParams w c)) in
  campus_total_energy_kw m == sumQ (map total_energy_kw bs)
  /\ campus_total_occupancy m == sumQ (map total_occupancy bs)
  /\ campus_total_capacity m == sumQ (map total_capacity bs)
  /\ campus_total_rooms m == sumQ (map total_rooms bs)
  /\ campus_occupancy_rate m = JS.toFixed 1 (sumQ (map occupancy_rate bs) / 5)
  /\ (0 <= randoms w k /\ randoms w k < 1)
  /\ Qabs (campus_total_water_lph m - (100 + 150 * randoms w k)) < 51 # 1000
  /\ (exists n : Z, estimated_cost_per_hour m = n # 100)
  /\ Qabs (estimated_cost_per_hour m
           - (sumQ (map total_energy_kw bs) * 0.12
              + campus_total_water_lph m * 0.002))
     < 51 # 10000.
Proof.
  intros Hw _. cbv zeta.
  rewrite generateMockCampusAnalysis_is_rollup, rollupCampus_building_states.
  set (bs := fst (generateBuildings buildingIds envParams w c)).
  set (c' := snd (generateBuildings buildingIds envParams w c)).
  destruct (rollupCampus_fields 5 bs w c') as (H1 & H2 & H3 & H4 & H5 & H6 & H7).
  split.
  { rewrite H1.
    assert (Hh : Forall (fun b => exists n : Z, total_energy_kw b == n # 100)
                        (Object_values bs)).
    { apply generateBuildings_Forall. intros id c1.
      apply generated_building_energy_hundredths. }
    destruct (sum_of_hundredths _ _ Hh) as [n Hn].
    now apply (toFixed2_exact _ n). }
  split; [exact H2|]. split; [exact H3|]. split; [exact H4|]. split; [exact H5|].
  split; [apply Hw|].
  split.
  { rewrite H6.
    setoid_replace (100 + 150 * randoms w (nextRandom c'))
      with (randoms w (nextRandom c') * 150 + 100) by ring.
    apply toFixed1_close. }
  split; [rewrite H7; apply (toFixed_decimal 2)|].
  rewrite H7. apply toFixed2_close.
Qed.

Lemma campus_rollup_totals_witness :
  let campus := fst (generateMockCampusAnalysis noParams evenWorld start) in
  let m := campus_metrics campus in
  let bs := Object_values (building_states campus) in
  let k := nextRandom (snd (generateBuildings buildingIds noParams evenWorld start)) in
  campus_total_energy_kw m == sumQ (map total_energy_kw bs)
  /\ campus_total_occupancy m == sumQ (map total_occupancy bs)
  /\ campus_total_capacity m == sumQ (map total_capacity bs)
  /\ campus_total_rooms m == sumQ (map total_rooms bs)
  /\ campus_occupancy_rate m = JS.toFixed 1 (sumQ (map occupancy_rate bs) / 5)
  /\ (0 <= randoms evenWorld k /\ randoms evenWorld k < 1)
  /\ Qabs (campus_total_water_lph m - (100 + 150 * randoms evenWorld k)) < 51 # 1000
  /\ (exists n : Z, estimated_cost_per_hour m = n # 100)
  /\ Qabs (estimated_cost_per_hour m
           - (sumQ (map total_energy_kw bs) * 0.12
              + campus_total_water_lph m * 0.002))
     < 51 # 10000.
Proof.
  apply (campus_rollup_totals noParams evenWorld start).
  - intros n. split; cbn; [discriminate | reflexivity].
  - split; intros q H; discriminate H.
Defined.

(** The draw that jitters the energy estimate: the third of the call when
    the occupancy is overridden, the fourth otherwise. *)
Lemma generateMockRoomData_energy_draw roomId buildingId envParams w c :
  let room := fst (generateMockRoomData roomId buildingId envParams w c) in
  let k := (nextRandom c
            + match JS.truthy (avg_occupancy envParams) with
              | Some _ => 2
              | None => 3
              end)%nat in
  estimated_energy_kw room
  = JS.toFixed 2
      (baseEnergyOf buildingId
       * energyMultiplierOf (current_occupancy room / capacity room * 100) envParams
       * (0.8 + randoms w k * 0.4)).
Proof.
  unfold generateMockRoomData, bind, ret, getTimeBasedOccupancy, getHours, Math_random.
  destruct (JS.truthy (avg_occupancy envParams)) as [a|]; cbn.
  - replace (nextRandom c + 2)%nat with (S (S (nextRandom c))) by lia. reflexivity.
  - replace (nextRandom c + 3)%nat with (S (S (S (nextRandom c)))) by lia. reflexivity.
Qed.

(** C6 (as the code has it): with [Math.random()] in [0, 1) and parameters
    of ordinary size, the energy estimate of a generated room is
    [base(building) * intensity * jitter] rounded to two decimals: a
    number of hundredths less than 0.0051 away from it.  The base load is
    looked up by building id (3.0 by default); the intensity is
    [0.3 + 0.7 * occupancy ratio] times 0.7 when lights are off, 0.6 when
    AC is off, 1.1 when fans are on and [1 + 0.05 * computers_count] for a
    positive count; the jitter is [0.8 + 0.4 * u], where [u] is the draw of
    [Math.random()] made third in the call when the occupancy is
    overridden and fourth otherwise.  The bounds on the parameters are not
    needed for exact arithmetic; they keep the floating-point arithmetic of
    the code within the margin. *)
Theorem generated_energy_estimate roomId buildingId envParams w c :
  fair w ->
  ordinary envParams ->
  let room := fst (generateMockRoomData roomId buildingId envParams w c) in
  let k := (nextRandom c
            + match JS.truthy (avg_occupancy envParams) with
              | Some _ => 2
              | None => 3
              end)%nat in
  (0 <= randoms w k /\ randoms w k < 1)
  /\ (exists n : Z, estimated_energy_kw room = n # 100)
  /\ Qabs (estimated_energy_kw room
           - baseEnergyOf buildingId
             * intensityFactor (current_occupancy room / capacity room) envParams
             * (0.8 + 0.4 * randoms w k))
     < 51 # 10000.
Proof.
  intros Hw _. cbv zeta.
  pose proof (generateMockRoomData_energy_draw roomId buildingId envParams w c) as He.
  cbv zeta in He.
  set (k := (nextRandom c + _)%nat) in *.
  split; [apply Hw|].
  rewrite He. split; [apply (toFixed_decimal 2)|].
  set (room := fst (generateMockRoomData roomId buildingId envParams w c)).
  setoid_replace (baseEnergyOf buildingId
                  * intensityFactor (current_occupancy room / capacity room) envParams
                  * (0.8 + 0.4 * randoms w k))
    with (baseEnergyOf buildingId
          * energyMultiplierOf (current_occupancy room / capacity room * 100) envParams
          * (0.8 + randoms w k * 0.4))
    by (rewrite energyMultiplierOf_product; ring).
  apply toFixed2_close.
Qed.

Lemma generated_energy_estimate_witness :
  let room := fst (generateMockRoomData "sci-001" "sci" (withFans 20) evenWorld start) in
  (0 <= randoms evenWorld 2 /\ randoms evenWorld 2 < 1)
  /\ (exists n : Z, estimated_energy_kw room = n # 100)
  /\ Qabs (estimated_energy_kw room
           - baseEnergyOf "sci"
             * intensityFactor (current_occupancy room / capacity room) (withFans 20)
             * (0.8 + 0.4 * randoms evenWorld 2))
     < 51 # 10000.
Proof.
  apply (generated_energy_estimate "sci-001" "sci" (withFans 20) evenWorld start).
  - intros n. split; cbn; [discriminate | reflexivity].
  - split; intros q H; inversion H; subst; split || idtac; discriminate.
Defined.
